(** * HR29: the derived-record computation layer

    A shallow embedding of the report, payroll, leave-balance and check-in
    code of the HR application, and the properties its specification states
    about them.

    Sources embedded here:
    - [src/unnamed/part_000]  the reports page ([allEmployeeReportData],
      [prepareAttendanceChartData], [prepareLeaveChartData], the table
      columns);
    - [src/unnamed/part_001]  the payroll page (salary helpers, [avgSalary]);
    - [src/unnamed/part_002]  the leave page ([calculateLeaveBalance]);
    - [src/server/routes.ts]  the report and check-in routes and the
      file-backed storage.

    JavaScript numbers that hold money are IEEE-754 doubles and are modelled
    by Rocq's primitive binary64 floats.  Counters and millisecond timestamps
    are integral doubles far below 2^53; they are modelled by [Z] extended
    with [NaN]. *)

From Stdlib Require Import String Ascii ZArith List Bool Lia Permutation Floats.
From Equations Require Import Equations.
Import ListNotations.
Set Warnings "-inexact-float".

(* ===================================================================== *)
(** * Part I: definitions                                                 *)
(* ===================================================================== *)

(** ** JavaScript values *)

Module Js.

(** An integral JavaScript number, or [NaN]. *)
Inductive num : Type :=
| Fin (z : Z)
| NaN.

Definition add (a b : num) : num :=
  match a, b with
  | Fin x, Fin y => Fin (x + y)
  | _, _ => NaN
  end.

Definition sub (a b : num) : num :=
  match a, b with
  | Fin x, Fin y => Fin (x - y)
  | _, _ => NaN
  end.

(** [Math.ceil(a / d)] for a positive literal divisor [d]. *)
Definition ceilDiv (a : num) (d : Z) : num :=
  match a with
  | Fin x => Fin (- ((- x) / d))
  | NaN => NaN
  end.

(** [a >= b] and [a > b]; every comparison with [NaN] is [false]. *)
Definition geb (a b : num) : bool :=
  match a, b with
  | Fin x, Fin y => (y <=? x)%Z
  | _, _ => false
  end.

Definition gtb (a b : num) : bool :=
  match a, b with
  | Fin x, Fin y => (y <? x)%Z
  | _, _ => false
  end.

(** A computation that returns or throws (a [RangeError] in this code). *)
Inductive outcome (A : Type) : Type :=
| Ok (a : A)
| Throw.
Arguments Ok {A} a.
Arguments Throw {A}.

Definition bind {A B : Type} (m : outcome A) (k : A -> outcome B) : outcome B :=
  match m with
  | Ok a => k a
  | Throw => Throw
  end.

(** [try { body } catch { handler }]. *)
Definition tryCatch {A : Type} (body : outcome A) (handler : A) : A :=
  match body with
  | Ok a => a
  | Throw => handler
  end.

(** [xs.reduce(f, init)] for a callback that may throw. *)
Definition reduce {A B : Type} (f : B -> A -> outcome B) (xs : list A) (init : B)
  : outcome B :=
  fold_left (fun acc x => bind acc (fun b => f b x)) xs (Ok init).

(** [xs.filter(p).length]. *)
Definition count {A : Type} (p : A -> bool) (xs : list A) : Z :=
  Z.of_nat (length (filter p xs)).

End Js.

(** ** Dates: the [Date] object and the date-fns functions the code calls *)

Module DateFns.
Import Js.
Open Scope Z_scope.

(** A [Date] holds a time value in UTC milliseconds, or is an Invalid Date
    (the result of [new Date(s)] on an unparseable string, or of
    [new Date(NaN)]). *)
Inductive Date : Type :=
| ValidDate (ms : Z)
| InvalidDate.

Definition msPerDay : Z := 86400000.
Definition msPerHour : Z := 3600000.
Definition msPerMinute : Z := 60000.
Definition maxTime : Z := 8640000000000000.

Definition getTime (d : Date) : num :=
  match d with
  | ValidDate ms => Fin ms
  | InvalidDate => NaN
  end.

(** [new Date(value)] on a number: truncation to an integer is implicit in
    [Z]; a time value outside the representable range gives an Invalid Date. *)
Definition ofNum (v : num) : Date :=
  match v with
  | Fin ms => if Z.abs ms <=? maxTime then ValidDate ms else InvalidDate
  | NaN => InvalidDate
  end.

(** The proleptic Gregorian date (year, month, day) of a day number counted
    from 1970-01-01. *)
Definition civil (dn : Z) : Z * Z * Z :=
  let z := dn + 719468 in
  let era := z / 146097 in
  let doe := z - era * 146097 in
  let yoe := (doe - doe / 1460 + doe / 36524 - doe / 146096) / 365 in
  let doy := doe - (365 * yoe + yoe / 4 - yoe / 100) in
  let mp := (5 * doy + 2) / 153 in
  let d := doy - (153 * mp + 2) / 5 + 1 in
  let m := if mp <? 10 then mp + 3 else mp - 9 in
  let y := yoe + era * 400 in
  (if m <=? 2 then y + 1 else y, m, d).

Definition digit (n : Z) : ascii :=
  ascii_of_nat (48 + Z.to_nat (n mod 10)).

Definition twoDigits (n : Z) : string :=
  String (digit (n / 10)) (String (digit n) EmptyString).

(** Local time is UTC shifted by a fixed offset [tz] (milliseconds east of
    Greenwich) of the machine the code runs on. *)
Section LocalTime.
Variable tz : Z.

Definition localMs (ms : Z) : Z := ms + tz.
Definition dayNumber (ms : Z) : Z := localMs ms / msPerDay.

(** [d.getDay()]: 0 is Sunday, 6 is Saturday; 1970-01-01 was a Thursday. *)
Definition weekday (dn : Z) : Z := (dn + 4) mod 7.

Definition getDay (d : Date) : num :=
  match d with
  | ValidDate ms => Fin (weekday (dayNumber ms))
  | InvalidDate => NaN
  end.

Definition getHours (d : Date) : num :=
  match d with
  | ValidDate ms => Fin ((localMs ms mod msPerDay) / msPerHour)
  | InvalidDate => NaN
  end.

Definition getMinutes (d : Date) : num :=
  match d with
  | ValidDate ms => Fin ((localMs ms mod msPerHour) / msPerMinute)
  | InvalidDate => NaN
  end.

(** [d.setHours(0, 0, 0, 0)]: local midnight of the same day. *)
Definition startOfDayMs (ms : Z) : Z := ms - localMs ms mod msPerDay.

(** date-fns [isWeekend(d)]: [day === 0 || day === 6]. *)
Definition isWeekend (d : Date) : bool :=
  match getDay d with
  | Fin w => (w =? 0) || (w =? 6)
  | NaN => false
  end.

(** date-fns [subDays(d, n)]: the same wall-clock time [n] days earlier. *)
Definition subDays (d : Date) (n : Z) : Date :=
  match d with
  | ValidDate ms => ValidDate (ms - n * msPerDay)
  | InvalidDate => InvalidDate
  end.

(** date-fns [format(d, 'yyyy-MM-dd')], kept as the triple it prints (the
    printing is injective); [format] throws a [RangeError] on an Invalid
    Date. *)
Definition format_yyyyMMdd (d : Date) : outcome (Z * Z * Z) :=
  match d with
  | ValidDate ms => Ok (civil (dayNumber ms))
  | InvalidDate => Throw
  end.

(** date-fns [format(d, 'MM/dd')]. *)
Definition format_MMdd (d : Date) : outcome string :=
  match d with
  | ValidDate ms =>
      let '(_, m, dd) := civil (dayNumber ms) in
      Ok (twoDigits m ++ "/" ++ twoDigits dd)%string
  | InvalidDate => Throw
  end.

(** date-fns [format(d, 'hh:mm a')]: 12-hour clock, 12 for midnight and
    noon. *)
Definition format_hhmma (d : Date) : outcome string :=
  match d with
  | ValidDate ms =>
      let h := (localMs ms mod msPerDay) / msPerHour in
      let m := (localMs ms mod msPerHour) / msPerMinute in
      let h12 := if h mod 12 =? 0 then 12 else h mod 12 in
      let ampm := if h <? 12 then "AM"%string else "PM"%string in
      Ok (twoDigits h12 ++ ":" ++ twoDigits m ++ " " ++ ampm)%string
  | InvalidDate => Throw
  end.

(** [d.toDateString()], kept as the calendar date it prints; an Invalid
    Date prints the fixed text "Invalid Date" ([None]) and does not throw. *)
Definition toDateString (d : Date) : option (Z * Z * Z) :=
  match d with
  | ValidDate ms => Some (civil (dayNumber ms))
  | InvalidDate => None
  end.

End LocalTime.

(** The loop of date-fns [eachDayOfInterval]:
    [while (+currentDate <= endTime) { dates.push(currentDate);
       currentDate.setDate(currentDate.getDate() + 1);
       currentDate.setHours(0, 0, 0, 0) }]
    started at a local midnight [cur]. *)
Equations? eachDayLoop (cur endTime : Z) : list Date
  by wf (Z.to_nat ((endTime - cur) / msPerDay + 1)) lt :=
  eachDayLoop cur endTime with Z_le_dec cur endTime => {
    | left _ => ValidDate cur :: eachDayLoop (cur + msPerDay) endTime;
    | right _ => [] }.
Proof.
  replace (endTime - (cur + msPerDay)) with (endTime - cur + (-1) * msPerDay) by ring.
  rewrite Z.div_add by (unfold msPerDay; lia).
  assert (0 <= (endTime - cur) / msPerDay)
    by (apply Z.div_pos; unfold msPerDay; lia).
  lia.
Qed.

Section Intervals.
Variable tz : Z.

(** What [eachDayOfInterval] does on an interval that is not
    [start <= end] (reversed, or with an Invalid Date) depends on the
    date-fns release, which the sources do not pin down: release 2 throws a
    [RangeError], release 3 walks the reversed interval.  That case is a
    parameter. *)
Variable badInterval : Date -> Date -> outcome (list Date).

Definition eachDayOfInterval (start end_ : Date) : outcome (list Date) :=
  match start, end_ with
  | ValidDate s, ValidDate e =>
      if s <=? e then Ok (eachDayLoop (startOfDayMs tz s) e)
      else badInterval start end_
  | _, _ => badInterval start end_
  end.

End Intervals.

End DateFns.

(** ** The shared schema ([src/shared/schema.ts]) *)

Module User.
Record t : Type := mk {
  id : Z;
  firstName : string;
  lastName : string;
  position : option string;
  departmentId : option Z;
  salary : option float
}.
End User.

Module Attendance.
Import DateFns.
(** Timestamps travel as JSON text: [None] is null (or an empty text, both
    falsy); [Some d] is a text that [new Date] reads as [d], possibly as an
    Invalid Date. *)
Record t : Type := mk {
  id : Z;
  userId : Z;
  checkInTime : option Date;
  checkOutTime : option Date;
  date : option Date;
  status : string;
  notes : option string
}.
End Attendance.

Module LeaveType.
Inductive t : Type :=
| annual | sick | personal | halfday | unpaid | other.

Definition eqb (a b : t) : bool :=
  match a, b with
  | annual, annual | sick, sick | personal, personal
  | halfday, halfday | unpaid, unpaid | other, other => true
  | _, _ => false
  end.

(** The text of a leave type, as stored. *)
Definition name (ty : t) : string :=
  match ty with
  | annual => "annual"
  | sick => "sick"
  | personal => "personal"
  | halfday => "halfday"
  | unpaid => "unpaid"
  | other => "other"
  end.
End LeaveType.

Inductive LeaveStatus : Type :=
| pending | approved | rejected.

(** [status === 'approved']; the column is nullable. *)
Definition isApproved (s : option LeaveStatus) : bool :=
  match s with
  | Some approved => true
  | _ => false
  end.

Module LeaveRequest.
Import DateFns.
(** [startDate] and [endDate] are what [new Date(request.startDate)] and
    [new Date(request.endDate)] give. *)
Record t : Type := mk {
  id : Z;
  userId : Z;
  type : LeaveType.t;
  startDate : Date;
  endDate : Date;
  status : option LeaveStatus
}.
End LeaveRequest.

(** ** The payroll page ([src/unnamed/part_001]) *)

Module PayrollPage.
Open Scope float_scope.

Definition calculateGrossSalary (baseSalary : float) : float :=
  baseSalary + (baseSalary * 0.4).
Definition calculateHRA (baseSalary : float) : float := baseSalary * 0.2.
Definition calculateProvidentFund (baseSalary : float) : float :=
  baseSalary * 0.12.
Definition calculateTDS (grossSalary : float) : float := grossSalary * 0.1.
Definition calculateNetSalary (grossSalary deductions : float) : float :=
  grossSalary - deductions.

(** [employee.salary || 0]: null, zero and NaN are falsy. *)
Definition salaryOrZero (s : option float) : float :=
  match s with
  | Some x => if (x =? 0) || is_nan x then 0 else x
  | None => 0
  end.

(** [employees.length] as a number. *)
Definition lengthNum {A : Type} (l : list A) : float :=
  of_uint63 (Uint63.of_Z (Z.of_nat (List.length l))).

Definition totalSalaryBudget (employees : list User.t) : float :=
  fold_left (fun sum emp => sum + salaryOrZero (User.salary emp)) employees 0.

Definition avgSalary (employees : list User.t) : float :=
  let activeEmployees := lengthNum employees in
  if 0 <? activeEmployees
  then totalSalaryBudget employees / activeEmployees
  else 0.

End PayrollPage.

(** ** The reports page ([src/unnamed/part_000]) *)

Module ReportsPage.
Import Js DateFns.
Open Scope Z_scope.

Inductive ReportType : Type :=
| AttendanceReport | PayrollReport | LeaveReport.

(** A view-record of the attendance and leave reports; an absent field is
    [undefined]. *)
Record ViewRecord : Type := mkView {
  user : option User.t;
  records : option (list Attendance.t);
  leaveRequests : option (list LeaveRequest.t)
}.

Record PayrollRow : Type := mkPayrollRow {
  rowUser : User.t;
  salary : float;
  grossSalary : float;
  hra : float;
  pf : float;
  tds : float;
  netSalary : float
}.

Inductive ReportRow : Type :=
| Payroll (r : PayrollRow)
| View (v : ViewRecord).

(** The payroll branch of [allEmployeeReportData]. *)
Definition payrollRow (employee : User.t) : PayrollRow :=
  let s := PayrollPage.salaryOrZero (User.salary employee) in
  {| rowUser := employee;
     salary := s;
     grossSalary := (s + (s * 0.4))%float;
     hra := (s * 0.2)%float;
     pf := (s * 0.12)%float;
     tds := ((s + (s * 0.4)) * 0.1)%float;
     netSalary := ((s + (s * 0.4)) - (s * 0.12) - ((s + (s * 0.4)) * 0.1))%float |}.

(** [data.user?.id === employee.id]. *)
Definition isViewOf (employee : User.t) (data : ViewRecord) : bool :=
  match user data with
  | Some u => User.id u =? User.id employee
  | None => false
  end.

(** The default structure for an employee with no report data. *)
Definition defaultView (reportType : ReportType) (employee : User.t) : ViewRecord :=
  {| user := Some employee;
     records := match reportType with AttendanceReport => Some [] | _ => None end;
     leaveRequests := match reportType with LeaveReport => Some [] | _ => None end |}.

Definition allEmployeeReportData (reportType : ReportType)
    (employees : list User.t) (reportData : list ViewRecord) : list ReportRow :=
  map (fun employee =>
         match reportType with
         | PayrollReport => Payroll (payrollRow employee)
         | _ =>
             match find (isViewOf employee) reportData with
             | Some existingData => View existingData
             | None => View (defaultView reportType employee)
             end
         end) employees.

(** One row of the attendance chart. *)
Record ChartRow : Type := mkChartRow {
  date : string;
  present : Z;
  absent : Z;
  late : Z
}.

Definition ymd_eqb (a b : Z * Z * Z) : bool :=
  let '(y1, m1, d1) := a in
  let '(y2, m2, d2) := b in
  (y1 =? y2) && (m1 =? m2) && (d1 =? d2).

(** [xs.map(f)] for a callback that may throw. *)
Fixpoint mapM {A B : Type} (f : A -> outcome B) (xs : list A) : outcome (list B) :=
  match xs with
  | [] => Ok []
  | x :: rest =>
      bind (f x) (fun y => bind (mapM f rest) (fun ys => Ok (y :: ys)))
  end.

Section Local.
Variable tz : Z.

(** The late test of the chart: present, checked in, and
    [checkIn.getHours() >= 9 && checkIn.getMinutes() > 0]. *)
Definition chartLate (record : Attendance.t) : bool :=
  match Attendance.checkInTime record with
  | Some checkIn =>
      if negb (Attendance.status record =? "present")%string then false
      else tryCatch
             (Ok (geb (getHours tz checkIn) (Fin 9)
                  && gtb (getMinutes tz checkIn) (Fin 0)))
             false
  | None => false
  end.

(** The late test of the attendance table's "Late Days" cell. *)
Definition columnLate (r : Attendance.t) : bool :=
  (Attendance.status r =? "present")%string
  && match Attendance.checkInTime r with
     | Some checkIn =>
         geb (getHours tz checkIn) (Fin 9) && gtb (getMinutes tz checkIn) (Fin 0)
     | None => false
     end.

(** The inner [forEach]: push the records of one entry dated [dateStr]; a
    date that [format] rejects is skipped by the [catch]. *)
Definition pushDayRecords (dateStr : Z * Z * Z)
    (dayRecords : list Attendance.t) (records : list Attendance.t)
  : list Attendance.t :=
  fold_left
    (fun (acc : list Attendance.t) (record : Attendance.t) =>
       match Attendance.date record with
       | Some d =>
           tryCatch
             (bind (format_yyyyMMdd tz d)
                   (fun recordDateStr =>
                      Ok (if ymd_eqb recordDateStr dateStr
                          then acc ++ [record] else acc)))
             acc
       | None => acc
       end)
    records dayRecords.

(** The outer [forEach] over the report entries. *)
Definition collectDayRecords (dateStr : Z * Z * Z) (reportData : list ViewRecord)
  : list Attendance.t :=
  fold_left
    (fun acc entry =>
       match records entry with
       | Some rs => pushDayRecords dateStr acc rs
       | None => acc
       end)
    reportData [].

Definition chartRow (reportData : list ViewRecord) (day : Date) : outcome ChartRow :=
  bind (format_yyyyMMdd tz day) (fun dateStr =>
  let dayRecords := collectDayRecords dateStr reportData in
  let present := count (fun record => (Attendance.status record =? "present")%string)
                       dayRecords in
  let absent := count (fun record => (Attendance.status record =? "absent")%string)
                      dayRecords in
  let late := count chartLate dayRecords in
  bind (format_MMdd tz day) (fun label =>
  Ok {| date := label; present := present; absent := absent; late := late |})).

(** [prepareAttendanceChartData], with [today] the value of [new Date()]. *)
Definition prepareAttendanceChartData (reportType : ReportType)
    (reportData : list ViewRecord) (today : Date) : outcome (list ChartRow) :=
  match reportType, reportData with
  | AttendanceReport, _ :: _ =>
      let dateRange := map (fun i => subDays today (6 - Z.of_nat i)) (seq 0 7) in
      mapM (chartRow reportData) dateRange
  | _, _ => Ok []
  end.

(** The "Present Days", "Absent Days" and "Late Days" cells. *)
Definition presentDays (row : ViewRecord) : Z :=
  match records row with
  | Some rs => count (fun r => (Attendance.status r =? "present")%string) rs
  | None => 0
  end.

Definition absentDays (row : ViewRecord) : Z :=
  match records row with
  | Some rs => count (fun r => (Attendance.status r =? "absent")%string) rs
  | None => 0
  end.

Definition lateDays (row : ViewRecord) : Z :=
  match records row with
  | Some rs => count columnLate rs
  | None => 0
  end.

(** The "Avg. Check In" cell.  The mean is taken on the millisecond values;
    [new Date] drops the fraction of the quotient. *)
Definition avgCheckIn (row : ViewRecord) : outcome string :=
  let checkIns :=
    match records row with
    | Some rs =>
        flat_map (fun r => match Attendance.checkInTime r with
                           | Some t => [t]
                           | None => []
                           end) rs
    | None => []
    end in
  match checkIns with
  | [] => Ok "N/A"%string
  | _ :: _ =>
      let total := fold_left (fun sum time => add sum (getTime time)) checkIns (Fin 0) in
      let avgTime :=
        ofNum (match total with
               | Fin t => Fin (Z.quot t (Z.of_nat (List.length checkIns)))
               | NaN => NaN
               end) in
      format_hhmma tz avgTime
  end.

End Local.

(** The "Total Days" cell of the leave table. *)
Definition totalDays (row : ViewRecord) : num :=
  let approvedLeaves :=
    match leaveRequests row with
    | Some rs => filter (fun r => isApproved (LeaveRequest.status r)) rs
    | None => []
    end in
  fold_left
    (fun sum leave =>
       let start := LeaveRequest.startDate leave in
       let end_ := LeaveRequest.endDate leave in
       let days := add (ceilDiv (sub (getTime end_) (getTime start))
                                (1000 * 60 * 60 * 24)) (Fin 1) in
       add sum days)
    approvedLeaves (Fin 0).

(** [leaveTypeCounts[key] += 1] on an object kept as its own properties in
    insertion order: a missing key reads as [undefined], and
    [undefined + 1] is [NaN], stored under a new key. *)
Fixpoint increment (o : list (string * num)) (key : string) : list (string * num) :=
  match o with
  | [] => [(key, NaN)]
  | (k, v) :: rest =>
      if (k =? key)%string then (k, add v (Fin 1)) :: rest
      else (k, v) :: increment rest key
  end.

Definition toUpperCase (c : ascii) : ascii :=
  let n := nat_of_ascii c in
  if (97 <=? n)%nat && (n <=? 122)%nat then ascii_of_nat (n - 32) else c.

(** [type.charAt(0).toUpperCase() + type.slice(1)]. *)
Definition capitalize (s : string) : string :=
  match s with
  | EmptyString => EmptyString
  | String c rest => String (toUpperCase c) rest
  end.

Record PieSlice : Type := mkPieSlice {
  name : string;
  value : num
}.

Definition leaveTypeCounts0 : list (string * num) :=
  [("annual", Fin 0); ("sick", Fin 0); ("personal", Fin 0);
   ("unpaid", Fin 0); ("other", Fin 0)]%string.

Definition countLeaveTypes (reportData : list ViewRecord) : list (string * num) :=
  fold_left
    (fun counts entry =>
       match leaveRequests entry with
       | Some rs =>
           fold_left
             (fun counts request =>
                if isApproved (LeaveRequest.status request)
                then increment counts (LeaveType.name (LeaveRequest.type request))
                else counts)
             rs counts
       | None => counts
       end)
    reportData leaveTypeCounts0.

Definition prepareLeaveChartData (reportType : ReportType)
    (reportData : list ViewRecord) : list PieSlice :=
  match reportType, reportData with
  | LeaveReport, _ :: _ =>
      map (fun '(type, count) => {| name := capitalize type; value := count |})
          (countLeaveTypes reportData)
  | _, _ => []
  end.

End ReportsPage.

(** ** The leave page ([src/unnamed/part_002]) *)

Module LeavePage.
Import Js DateFns.
Open Scope Z_scope.

Record Balance : Type := mkBalance {
  total : Z;
  used : Z;
  remaining : Z
}.

Section Balance.
Variable tz : Z.
Variable badInterval : Date -> Date -> outcome (list Date).

(** The callback of the [reduce] in [calculateLeaveBalance]. *)
Definition consume (type : LeaveType.t) (total : Z) (request : LeaveRequest.t)
  : outcome Z :=
  let start := LeaveRequest.startDate request in
  let end_ := LeaveRequest.endDate request in
  match type with
  | LeaveType.halfday => Ok (total + 1)
  | _ =>
      bind (eachDayOfInterval tz badInterval start end_) (fun allDays =>
      let businessDays := filter (fun day => negb (isWeekend tz day)) allDays in
      Ok (total + Z.of_nat (List.length businessDays)))
  end.

Definition usedUnits (myLeaveRequests : list LeaveRequest.t) (type : LeaveType.t)
  : outcome Z :=
  reduce (consume type)
         (filter (fun request =>
                    isApproved (LeaveRequest.status request)
                    && LeaveType.eqb (LeaveRequest.type request) type)
                 myLeaveRequests)
         0.

Definition calculateLeaveBalance (myLeaveRequests : list LeaveRequest.t)
    (type : LeaveType.t) : outcome Balance :=
  let annual := 20 in
  let sick := 10 in
  let personal := 5 in
  let halfday := 12 in
  bind (usedUnits myLeaveRequests type) (fun used =>
  Ok match type with
     | LeaveType.annual => {| total := annual; used := used; remaining := annual - used |}
     | LeaveType.sick => {| total := sick; used := used; remaining := sick - used |}
     | LeaveType.personal =>
         {| total := personal; used := used; remaining := personal - used |}
     | LeaveType.halfday =>
         {| total := halfday; used := used; remaining := halfday - used |}
     | _ => {| total := 0; used := 0; remaining := 0 |}
     end).

End Balance.
End LeavePage.

(** ** The server ([src/server/routes.ts]) *)

Module Server.
Import Js DateFns.
Open Scope Z_scope.

(** The part of [FileStorage]'s data that the report and check-in routes
    read and write. *)
Record Storage : Type := mkStorage {
  users : list User.t;
  attendanceRecords : list Attendance.t;
  currentAttendanceId : Z
}.

Record InsertAttendance : Type := mkInsert {
  insUserId : Z;
  insCheckInTime : option Date;
  insCheckOutTime : option Date;
  insDate : option Date;
  insStatus : option string;
  insNotes : option string
}.

(** An HTTP reply: a status code with a JSON value or a message. *)
Inductive Body (A : Type) : Type :=
| Json (a : A)
| Message (m : string).
Arguments Json {A} a.
Arguments Message {A} m.

Record Response (A : Type) : Type := mkResponse {
  statusCode : Z;
  body : Body A
}.
Arguments mkResponse {A} statusCode body.
Arguments statusCode {A} r.
Arguments body {A} r.

Definition getAttendanceByUser (st : Storage) (userId : Z) : list Attendance.t :=
  filter (fun a => Attendance.userId a =? userId) (attendanceRecords st).

(** [createAttendance]: the next id is taken, the record is pushed and the
    data saved. *)
Definition createAttendance (st : Storage) (insertAttendance : InsertAttendance)
  : Attendance.t * Storage :=
  let id := currentAttendanceId st in
  let attendance :=
    {| Attendance.id := id;
       Attendance.userId := insUserId insertAttendance;
       Attendance.checkInTime := insCheckInTime insertAttendance;
       Attendance.checkOutTime := insCheckOutTime insertAttendance;
       Attendance.date := insDate insertAttendance;
       Attendance.status :=
         match insStatus insertAttendance with
         | Some s => s
         | None => "present"%string
         end;
       Attendance.notes := insNotes insertAttendance |} in
  (attendance,
   {| users := users st;
      attendanceRecords := attendanceRecords st ++ [attendance];
      currentAttendanceId := id + 1 |}).

Definition dateString_eqb (a b : option (Z * Z * Z)) : bool :=
  match a, b with
  | Some x, Some y => ReportsPage.ymd_eqb x y
  | None, None => true
  | _, _ => false
  end.

Section Local.
Variable tz : Z.

Definition getAttendanceByDate (st : Storage) (date : Date) : list Attendance.t :=
  let dateString := toDateString tz date in
  filter (fun record =>
            match Attendance.date record with
            | Some d => dateString_eqb (toDateString tz d) dateString
            | None => false
            end)
         (attendanceRecords st).

(** [POST /api/attendance/check-in].  [session] is [req.user.id] of an
    authenticated request, [nowMs] the time value of [new Date()]. *)
Definition checkIn (st : Storage) (session : option Z) (nowMs : Z)
  : Response Attendance.t * Storage :=
  match session with
  | None => (mkResponse 401 (Message "Unauthorized"), st)
  | Some userId =>
      let now := ValidDate nowMs in
      let todayRecords := getAttendanceByDate st now in
      let userTodayRecord :=
        find (fun record => Attendance.userId record =? userId) todayRecords in
      let alreadyCheckedIn :=
        match userTodayRecord with
        | Some record =>
            match Attendance.checkInTime record with
            | Some _ => true
            | None => false
            end
        | None => false
        end in
      if alreadyCheckedIn
      then (mkResponse 400 (Message "Already checked in today"), st)
      else
        let '(attendance, st') :=
          createAttendance st
            {| insUserId := userId;
               insCheckInTime := Some now;
               insCheckOutTime := None;
               insDate := Some now;
               insStatus := Some "present"%string;
               insNotes := Some ""%string |} in
        (mkResponse 201 (Json attendance), st')
  end.

End Local.

(** The query of [GET /api/reports/attendance]: an absent or empty parameter
    is [None]; [departmentId] is what [parseInt] reads from its text. *)
Record ReportQuery : Type := mkQuery {
  startDate : option Date;
  endDate : option Date;
  departmentId : option num
}.

Definition inDepartment (d : num) (user : User.t) : bool :=
  match User.departmentId user, d with
  | Some x, Fin n => x =? n
  | _, _ => false
  end.

(** [recordDate && recordDate >= start && recordDate <= end]. *)
Definition inRange (start end_ : Date) (record : Attendance.t) : bool :=
  match Attendance.date record with
  | Some recordDate =>
      geb (getTime recordDate) (getTime start)
      && geb (getTime end_) (getTime recordDate)
  | None => false
  end.

(** The user fields the report copies. *)
Definition reportUser (user : User.t) : User.t :=
  {| User.id := User.id user;
     User.firstName := User.firstName user;
     User.lastName := User.lastName user;
     User.position := User.position user;
     User.departmentId := User.departmentId user;
     User.salary := None |}.

Definition attendanceReport (st : Storage) (q : ReportQuery)
  : Response (list ReportsPage.ViewRecord) :=
  match startDate q, endDate q with
  | Some start, Some end_ =>
      let allUsers := users st in
      let users :=
        match departmentId q with
        | Some d => filter (inDepartment d) allUsers
        | None => allUsers
        end in
      let allAttendance :=
        fold_left
          (fun allAttendance user =>
             let userAttendance := getAttendanceByUser st (User.id user) in
             let filteredAttendance := filter (inRange start end_) userAttendance in
             match filteredAttendance with
             | _ :: _ =>
                 allAttendance ++
                 [{| ReportsPage.user := Some (reportUser user);
                     ReportsPage.records := Some filteredAttendance;
                     ReportsPage.leaveRequests := None |}]
             | [] => allAttendance
             end)
          users [] in
      mkResponse 200 (Json allAttendance)
  | _, _ => mkResponse 400 (Message "startDate and endDate are required")
  end.

(** A nullable timestamp after [res.json] and the page's [JSON.parse]: a
    valid Date is printed as ISO text, which [new Date] reads back to the
    same time value; an Invalid Date is printed as null. *)
Definition timestampOverJson (d : option Date) : option Date :=
  match d with
  | Some (ValidDate ms) => Some (ValidDate ms)
  | Some InvalidDate => None
  | None => None
  end.

(** A date of a leave request after the same passage: the null of an
    Invalid Date is read by [new Date(null)] as the epoch. *)
Definition dateOverJson (d : Date) : Date :=
  match d with
  | ValidDate ms => ValidDate ms
  | InvalidDate => ValidDate 0
  end.

Definition attendanceOverJson (a : Attendance.t) : Attendance.t :=
  {| Attendance.id := Attendance.id a;
     Attendance.userId := Attendance.userId a;
     Attendance.checkInTime := timestampOverJson (Attendance.checkInTime a);
     Attendance.checkOutTime := timestampOverJson (Attendance.checkOutTime a);
     Attendance.date := timestampOverJson (Attendance.date a);
     Attendance.status := Attendance.status a;
     Attendance.notes := Attendance.notes a |}.

Definition leaveRequestOverJson (l : LeaveRequest.t) : LeaveRequest.t :=
  {| LeaveRequest.id := LeaveRequest.id l;
     LeaveRequest.userId := LeaveRequest.userId l;
     LeaveRequest.type := LeaveRequest.type l;
     LeaveRequest.startDate := dateOverJson (LeaveRequest.startDate l);
     LeaveRequest.endDate := dateOverJson (LeaveRequest.endDate l);
     LeaveRequest.status := LeaveRequest.status l |}.

Definition viewOverJson (v : ReportsPage.ViewRecord) : ReportsPage.ViewRecord :=
  {| ReportsPage.user := ReportsPage.user v;
     ReportsPage.records := option_map (map attendanceOverJson) (ReportsPage.records v);
     ReportsPage.leaveRequests :=
       option_map (map leaveRequestOverJson) (ReportsPage.leaveRequests v) |}.

(** What the reports page holds in [reportData] after the query: the JSON
    of a successful reply, and the default [[]] otherwise. *)
Definition fetched (r : Response (list ReportsPage.ViewRecord))
  : list ReportsPage.ViewRecord :=
  match body r with
  | Json data => map viewOverJson data
  | Message _ => []
  end.

End Server.

(* ===================================================================== *)
(** * Part II: properties                                                 *)
(* ===================================================================== *)

(** ** Lateness ([chartLate], [columnLate]) *)

Module Lateness.
Import Js DateFns ReportsPage.
Open Scope Z_scope.

(** A present record whose check-in falls [sinceMidnight] milliseconds after
    local midnight of day 0, on a machine at offset [tz]. *)
Definition presentAt (tz sinceMidnight : Z) : Attendance.t :=
  {| Attendance.id := 1;
     Attendance.userId := 1;
     Attendance.checkInTime := Some (ValidDate (sinceMidnight - tz));
     Attendance.checkOutTime := None;
     Attendance.date := Some (ValidDate (sinceMidnight - tz));
     Attendance.status := "present";
     Attendance.notes := None |}.

(** Milliseconds after midnight of the wall-clock time [h:m:s]. *)
Definition clock (h m s : Z) : Z := h * msPerHour + m * msPerMinute + s * 1000.

Lemma local_presentAt tz t : localMs tz (t - tz) = t.
Proof. unfold localMs. lia. Qed.

Lemma chartLate_presentAt tz t :
  chartLate tz (presentAt tz t)
  = (9 <=? (t mod msPerDay) / msPerHour) && (0 <? (t mod msPerHour) / msPerMinute).
Proof.
  unfold chartLate, presentAt; cbn [Attendance.checkInTime Attendance.status].
  cbn [String.eqb Ascii.eqb Bool.eqb negb tryCatch getHours getMinutes geb gtb].
  rewrite local_presentAt. reflexivity.
Qed.

Lemma columnLate_presentAt tz t :
  columnLate tz (presentAt tz t)
  = (9 <=? (t mod msPerDay) / msPerHour) && (0 <? (t mod msPerHour) / msPerMinute).
Proof.
  unfold columnLate, presentAt; cbn [Attendance.checkInTime Attendance.status].
  cbn [String.eqb Ascii.eqb Bool.eqb andb getHours getMinutes geb gtb].
  rewrite local_presentAt. reflexivity.
Qed.

(** C1 (failing input).  In every time zone, a present record checked in
    [t] milliseconds after local midnight is classified late, by the chart
    filter and by the table cell alike, exactly when its hour is at least 9
    and its minute at least 1.  So a check-in at 09:00:01 is classified not
    late although it lies strictly after 9:00:00, and so is one at 10:00:30.
    The two other boundary cases hold: 09:00:00 and 08:59:59 are not late;
    and 09:01:00 is late. *)
Theorem late_misses_0900_01 (tz : Z) :
  (forall t,
     chartLate tz (presentAt tz t)
     = (9 <=? (t mod msPerDay) / msPerHour) && (1 <=? (t mod msPerHour) / msPerMinute)
     /\ columnLate tz (presentAt tz t) = chartLate tz (presentAt tz t))
  /\ chartLate tz (presentAt tz (clock 9 0 1)) = false
  /\ columnLate tz (presentAt tz (clock 9 0 1)) = false
  /\ chartLate tz (presentAt tz (clock 10 0 30)) = false
  /\ columnLate tz (presentAt tz (clock 10 0 30)) = false
  /\ chartLate tz (presentAt tz (clock 9 0 0)) = false
  /\ columnLate tz (presentAt tz (clock 9 0 0)) = false
  /\ chartLate tz (presentAt tz (clock 8 59 59)) = false
  /\ columnLate tz (presentAt tz (clock 8 59 59)) = false
  /\ chartLate tz (presentAt tz (clock 9 1 0)) = true
  /\ columnLate tz (presentAt tz (clock 9 1 0)) = true.
Proof.
  split.
  - intros t. rewrite columnLate_presentAt, chartLate_presentAt.
    split; [| reflexivity]. f_equal.
    destruct (Z.ltb_spec 0 (t mod msPerHour / msPerMinute)),
      (Z.leb_spec 1 (t mod msPerHour / msPerMinute)); try reflexivity; lia.
  - rewrite !chartLate_presentAt, !columnLate_presentAt.
    vm_compute. repeat split; reflexivity.
Qed.

End Lateness.

(** ** Payroll formulas *)

Module PayrollProps.
Import PayrollPage ReportsPage.
Open Scope float_scope.

(** Multiplication of doubles is commutative. *)
Lemma SFmul_comm prec emax x y : SFmul prec emax x y = SFmul prec emax y x.
Proof.
  destruct x as [sx|sx| |sx mx ex], y as [sy|sy| |sy my ey]; simpl;
    try reflexivity; try (rewrite (xorb_comm sx sy); reflexivity).
  rewrite (xorb_comm sx sy), (Pos.mul_comm mx my), (Z.add_comm ex ey).
  reflexivity.
Qed.

Lemma mul_comm (x y : float) : x * y = y * x.
Proof.
  rewrite <- (SF2Prim_Prim2SF (x * y)), <- (SF2Prim_Prim2SF (y * x)).
  rewrite !mul_spec. unfold SF64mul. rewrite SFmul_comm. reflexivity.
Qed.

Definition employeeWithSalary (s : float) : User.t :=
  {| User.id := 1; User.firstName := "Asha"; User.lastName := "Rao";
     User.position := None; User.departmentId := None;
     User.salary := Some s |}.

(** C2 (counterexample).  At base salary 3 the gross salary the code
    computes, [3 + 3 * 0.4], is the double 4.2, while [1.4 * 3] is the
    double 4.199999999999999: the equation [grossSalary = 1.4 * baseSalary]
    fails, for the helper of the payroll page and for the report row.  At
    the same salary the net salary of the payroll page, computed as
    [grossSalary - (pf + tds)], is not the double [grossSalary - pf - tds]. *)
Lemma gross_is_not_1_4_times_base :
  calculateGrossSalary 3 <> 1.4 * 3
  /\ grossSalary (payrollRow (employeeWithSalary 3)) <> 1.4 * 3
  /\ calculateNetSalary (calculateGrossSalary 3)
       (calculateProvidentFund 3 + calculateTDS (calculateGrossSalary 3))
     <> calculateGrossSalary 3 - calculateProvidentFund 3
        - calculateTDS (calculateGrossSalary 3).
Proof.
  repeat split; vm_compute; intro H; discriminate H.
Qed.

(** C2 (amended).  With all arithmetic in doubles: for every base salary
    [b] the helpers of the payroll page give [grossSalary = b + 0.4 * b],
    [hra = 0.2 * b], [pf = 0.12 * b], [tds = 0.1 * grossSalary] and
    [netSalary = grossSalary - (pf + tds)]; for every employee, with [s] the
    salary (0 when absent), the report row holds the same gross, HRA, PF and
    TDS at [s] and [netSalary = grossSalary - pf - tds]; and a salary of
    100000 gives 140000, 20000, 12000, 14000 and 114000 on both pages. *)
Theorem payroll_breakdown :
  (forall b : float,
     let gross := calculateGrossSalary b in
     let pf := calculateProvidentFund b in
     let tds := calculateTDS gross in
     gross = b + 0.4 * b
     /\ calculateHRA b = 0.2 * b
     /\ pf = 0.12 * b
     /\ tds = 0.1 * gross
     /\ calculateNetSalary gross (pf + tds) = gross - (pf + tds))
  /\ (forall employee,
        let s := salaryOrZero (User.salary employee) in
        let row := payrollRow employee in
        salary row = s
        /\ grossSalary row = calculateGrossSalary s
        /\ hra row = calculateHRA s
        /\ pf row = calculateProvidentFund s
        /\ tds row = calculateTDS (calculateGrossSalary s)
        /\ tds row = 0.1 * grossSalary row
        /\ netSalary row = grossSalary row - pf row - tds row)
  /\ (forall employee, User.salary employee = Some 100000 ->
        payrollRow employee
        = {| rowUser := employee; salary := 100000; grossSalary := 140000;
             hra := 20000; pf := 12000; tds := 14000; netSalary := 114000 |})
  /\ calculateHRA 100000 = 20000
  /\ calculateNetSalary (calculateGrossSalary 100000)
       (calculateProvidentFund 100000 + calculateTDS (calculateGrossSalary 100000))
     = 114000.
Proof.
  split; [| split; [| split; [| split]]].
  - intros b gross pf tds. subst gross pf tds.
    unfold calculateGrossSalary, calculateHRA, calculateProvidentFund,
      calculateTDS, calculateNetSalary.
    rewrite (mul_comm 0.4 b), (mul_comm 0.2 b), (mul_comm 0.12 b),
      (mul_comm 0.1 (b + b * 0.4)).
    repeat split; reflexivity.
  - intros employee s row. subst row. unfold payrollRow. fold s.
    cbn [salary grossSalary hra pf tds netSalary].
    rewrite (mul_comm 0.1 (s + s * 0.4)).
    repeat split; reflexivity.
  - intros employee H. unfold payrollRow. rewrite H. vm_compute. reflexivity.
  - vm_compute. reflexivity.
  - vm_compute. reflexivity.
Qed.

Lemma payroll_breakdown_witness :
  User.salary (employeeWithSalary 100000) = Some 100000
  /\ payrollRow (employeeWithSalary 100000)
     = {| rowUser := employeeWithSalary 100000; salary := 100000;
          grossSalary := 140000; hra := 20000; pf := 12000; tds := 14000;
          netSalary := 114000 |}.
Proof.
  split; [reflexivity |].
  apply (proj1 (proj2 (proj2 payroll_breakdown))). reflexivity.
Defined.

End PayrollProps.

(** ** The leave-type pie chart *)

Module LeaveChart.
Import Js DateFns ReportsPage.
Open Scope Z_scope.

Definition leaveOf (ty : LeaveType.t) (st : option LeaveStatus) (s e : Date)
  : LeaveRequest.t :=
  {| LeaveRequest.id := 1; LeaveRequest.userId := 1; LeaveRequest.type := ty;
     LeaveRequest.startDate := s; LeaveRequest.endDate := e;
     LeaveRequest.status := st |}.

(** A leave view-record holding the given requests. *)
Definition leaveView (rs : list LeaveRequest.t) : ViewRecord :=
  {| user := None; records := None; leaveRequests := Some rs |}.

Definition oneHalfday : list ViewRecord :=
  [leaveView [leaveOf LeaveType.halfday (Some approved)
                      (ValidDate 0) (ValidDate 0)]].

(** The number of approved requests of type [ty] among [rs]. *)
Definition approvedOf (ty : LeaveType.t) (rs : list LeaveRequest.t) : Z :=
  count (fun r => isApproved (LeaveRequest.status r)
                  && LeaveType.eqb (LeaveRequest.type r) ty) rs.

(** Every leave request of the report data, entry after entry. *)
Definition allRequests (reportData : list ViewRecord) : list LeaveRequest.t :=
  flat_map (fun entry => match leaveRequests entry with
                         | Some rs => rs
                         | None => []
                         end) reportData.

(** The counter object after [a], [s], [p], [u], [o] approved requests of
    the five bucket types, and [h] approved half days. *)
Definition counters (a s p u o h : Z) : list (string * num) :=
  [("annual", Fin a); ("sick", Fin s); ("personal", Fin p);
   ("unpaid", Fin u); ("other", Fin o)]%string
  ++ (if 0 <? h then [("halfday"%string, NaN)] else []).

(** The counter object after the approved requests among [rs] are added. *)
Definition countersOf (a s p u o h : Z) (rs : list LeaveRequest.t)
  : list (string * num) :=
  counters (a + approvedOf LeaveType.annual rs) (s + approvedOf LeaveType.sick rs)
           (p + approvedOf LeaveType.personal rs)
           (u + approvedOf LeaveType.unpaid rs)
           (o + approvedOf LeaveType.other rs)
           (h + approvedOf LeaveType.halfday rs).

Lemma approvedOf_nonneg ty rs : 0 <= approvedOf ty rs.
Proof. unfold approvedOf, count. lia. Qed.

Lemma approvedOf_cons ty r rs :
  approvedOf ty (r :: rs)
  = (if isApproved (LeaveRequest.status r) && LeaveType.eqb (LeaveRequest.type r) ty
     then 1 else 0) + approvedOf ty rs.
Proof.
  unfold approvedOf, count. cbn [filter].
  destruct (_ && _); cbn [List.length]; lia.
Qed.

Lemma approvedOf_app ty rs rs' :
  approvedOf ty (rs ++ rs') = approvedOf ty rs + approvedOf ty rs'.
Proof.
  unfold approvedOf, count. rewrite filter_app, length_app. lia.
Qed.

Lemma increment_counters a s p u o h ty :
  0 <= h ->
  increment (counters a s p u o h) (LeaveType.name ty)
  = match ty with
    | LeaveType.annual => counters (a + 1) s p u o h
    | LeaveType.sick => counters a (s + 1) p u o h
    | LeaveType.personal => counters a s (p + 1) u o h
    | LeaveType.unpaid => counters a s p (u + 1) o h
    | LeaveType.other => counters a s p u (o + 1) h
    | LeaveType.halfday => counters a s p u o (h + 1)
    end.
Proof.
  intros Hh. unfold counters.
  destruct ty; try reflexivity.
  replace (0 <? h + 1) with true by (symmetry; apply Z.ltb_lt; lia).
  destruct (0 <? h); reflexivity.
Qed.

Lemma count_requests rs : forall a s p u o h,
  0 <= h ->
  fold_left
    (fun counts request =>
       if isApproved (LeaveRequest.status request)
       then increment counts (LeaveType.name (LeaveRequest.type request))
       else counts)
    rs (counters a s p u o h)
  = countersOf a s p u o h rs.
Proof.
  unfold countersOf.
  induction rs as [| r rs IH]; intros a s p u o h Hh; cbn [fold_left].
  - unfold approvedOf, count. cbn. now rewrite !Z.add_0_r.
  - rewrite !approvedOf_cons.
    destruct (isApproved (LeaveRequest.status r)); cbn [andb].
    + rewrite increment_counters by exact Hh.
      destruct (LeaveRequest.type r); rewrite IH by lia; cbn [LeaveType.eqb];
        f_equal; lia.
    + rewrite IH by exact Hh. f_equal; lia.
Qed.

Lemma count_entries reportData : forall a s p u o h,
  0 <= h ->
  fold_left
    (fun counts entry =>
       match leaveRequests entry with
       | Some rs =>
           fold_left
             (fun counts request =>
                if isApproved (LeaveRequest.status request)
                then increment counts (LeaveType.name (LeaveRequest.type request))
                else counts)
             rs counts
       | None => counts
       end)
    reportData (counters a s p u o h)
  = countersOf a s p u o h (allRequests reportData).
Proof.
  induction reportData as [| entry rest IH]; intros a s p u o h Hh;
    cbn [fold_left allRequests flat_map].
  - unfold countersOf, approvedOf, count. cbn. now rewrite !Z.add_0_r.
  - fold (allRequests rest).
    destruct (leaveRequests entry) as [rs |]; cbn [app].
    + rewrite count_requests by exact Hh. unfold countersOf at 1.
      rewrite IH by (pose proof (approvedOf_nonneg LeaveType.halfday rs); lia).
      unfold countersOf. rewrite !approvedOf_app. f_equal; lia.
    + now apply IH.
Qed.

(** C4 (failing input).  For non-empty report data the pie data starts with
    the five slices Annual, Sick, Personal, Unpaid and Other, each valued
    with the number of approved requests of its type; but as soon as the
    report data holds an approved half-day request the pie data has a sixth
    slice, named "Halfday", whose value is [NaN]: the request is not
    dropped.  With one approved half-day request and nothing else the six
    slices are 0, 0, 0, 0, 0 and [NaN]. *)
Theorem halfday_adds_a_NaN_slice :
  (forall entry rest,
     let rs := allRequests (entry :: rest) in
     prepareLeaveChartData LeaveReport (entry :: rest)
     = [ {| name := "Annual"; value := Fin (approvedOf LeaveType.annual rs) |};
         {| name := "Sick"; value := Fin (approvedOf LeaveType.sick rs) |};
         {| name := "Personal"; value := Fin (approvedOf LeaveType.personal rs) |};
         {| name := "Unpaid"; value := Fin (approvedOf LeaveType.unpaid rs) |};
         {| name := "Other"; value := Fin (approvedOf LeaveType.other rs) |} ]
       ++ (if 0 <? approvedOf LeaveType.halfday rs
           then [ {| name := "Halfday"; value := NaN |} ] else []))
  /\ prepareLeaveChartData LeaveReport oneHalfday
     = [ {| name := "Annual"; value := Fin 0 |};
         {| name := "Sick"; value := Fin 0 |};
         {| name := "Personal"; value := Fin 0 |};
         {| name := "Unpaid"; value := Fin 0 |};
         {| name := "Other"; value := Fin 0 |};
         {| name := "Halfday"; value := NaN |} ].
Proof.
  split; [| vm_compute; reflexivity].
  intros entry rest rs. unfold prepareLeaveChartData, countLeaveTypes.
  change leaveTypeCounts0 with (counters 0 0 0 0 0 0).
  rewrite count_entries by lia. fold rs. unfold countersOf, counters.
  rewrite !Z.add_0_l, map_app.
  destruct (0 <? approvedOf LeaveType.halfday rs); reflexivity.
Qed.

End LeaveChart.

(** ** Unparseable dates *)

Module BadDates.
Import Js DateFns ReportsPage.
Open Scope Z_scope.

(** An approved annual leave whose start date text does not parse. *)
Definition badLeave : ViewRecord :=
  LeaveChart.leaveView
    [LeaveChart.leaveOf LeaveType.annual (Some approved)
                        InvalidDate (ValidDate 0);
     LeaveChart.leaveOf LeaveType.annual (Some approved)
                        (ValidDate 0) (ValidDate msPerDay)].

(** A present record whose date and check-in texts do not parse. *)
Definition badAttendance : Attendance.t :=
  {| Attendance.id := 1; Attendance.userId := 1;
     Attendance.checkInTime := Some InvalidDate;
     Attendance.checkOutTime := None;
     Attendance.date := Some InvalidDate;
     Attendance.status := "present";
     Attendance.notes := None |}.

Definition badAttendanceView : ViewRecord :=
  {| user := None; records := Some [badAttendance]; leaveRequests := None |}.

Lemma add_NaN_r (x : num) : add x NaN = NaN.
Proof. now destruct x. Qed.

Lemma sub_NaN_r (x : num) : sub x NaN = NaN.
Proof. now destruct x. Qed.

Lemma totalDays_from_NaN (rs : list LeaveRequest.t) :
  fold_left
    (fun sum leave =>
       add sum (add (ceilDiv (sub (getTime (LeaveRequest.endDate leave))
                                  (getTime (LeaveRequest.startDate leave)))
                             (1000 * 60 * 60 * 24)) (Fin 1)))
    rs NaN = NaN.
Proof. induction rs as [| r rs IH]; [reflexivity | exact IH]. Qed.

(** C5 (failing input).  The chart rollup does skip a record whose date does
    not parse, but the table cells do not.  The "Total Days" cell of a row
    that holds, anywhere among its leaves, an approved leave whose start
    date does not parse is [NaN]: the record is not left out, and the days
    of the well-formed leaves of the row are lost with it.  The "Avg. Check
    In" cell of a row with a check-in text that does not parse throws. *)
Theorem unparseable_dates_not_contained (tz : Z) :
  collectDayRecords tz (civil 0) [badAttendanceView] = []
  /\ chartLate tz badAttendance = false
  /\ (forall before after ty end_,
        totalDays (LeaveChart.leaveView
                     (before
                      ++ LeaveChart.leaveOf ty (Some approved) InvalidDate end_
                      :: after)) = NaN)
  /\ totalDays badLeave = NaN
  /\ avgCheckIn tz badAttendanceView = Throw.
Proof.
  split; [reflexivity |]. split; [reflexivity |].
  split; [| split; reflexivity].
  intros before after ty end_. unfold totalDays.
  cbn [LeaveChart.leaveView leaveRequests].
  rewrite filter_app, fold_left_app. cbn [filter LeaveChart.leaveOf
    LeaveRequest.status isApproved fold_left LeaveRequest.startDate getTime].
  rewrite sub_NaN_r. cbn [ceilDiv add]. rewrite add_NaN_r.
  apply totalDays_from_NaN.
Qed.

End BadDates.

(** ** Guards on averages *)

Module Averages.
Import Js DateFns ReportsPage.
Open Scope Z_scope.

(** The row has no record with a check-in timestamp. *)
Definition noCheckIn (row : ViewRecord) : Prop :=
  match records row with
  | Some rs => Forall (fun r => Attendance.checkInTime r = None) rs
  | None => True
  end.

Lemma flat_map_nil {A B : Type} (f : A -> list B) (l : list A) :
  Forall (fun x => f x = []) l -> flat_map f l = [].
Proof.
  induction 1 as [| x l Hx _ IH]; cbn; [reflexivity |].
  rewrite Hx, IH. reflexivity.
Qed.

(** C9.  For a row with no check-in timestamp the "Avg. Check In" cell is
    the text "N/A" (nothing is divided and nothing is thrown), and with no
    employee the average salary is 0. *)
Theorem averages_guarded (tz : Z) (row : ViewRecord) :
  noCheckIn row ->
  avgCheckIn tz row = Ok "N/A"%string
  /\ PayrollPage.avgSalary [] = 0%float.
Proof.
  intros H. split; [| reflexivity].
  unfold avgCheckIn, noCheckIn in *.
  destruct (records row) as [rs |]; [| reflexivity].
  rewrite flat_map_nil; [reflexivity |].
  eapply Forall_impl; [| exact H].
  intros r Hr. cbn beta. rewrite Hr. reflexivity.
Qed.

Definition absentOnly : ViewRecord :=
  {| user := None;
     records := Some [ {| Attendance.id := 1; Attendance.userId := 1;
                          Attendance.checkInTime := None;
                          Attendance.checkOutTime := None;
                          Attendance.date := Some (ValidDate 0);
                          Attendance.status := "absent";
                          Attendance.notes := None |} ];
     leaveRequests := None |}.

Lemma averages_guarded_witness :
  noCheckIn absentOnly
  /\ avgCheckIn 0 absentOnly = Ok "N/A"%string
  /\ PayrollPage.avgSalary [] = 0%float.
Proof.
  assert (H : noCheckIn absentOnly)
    by (cbn; constructor; [reflexivity | constructor]).
  split; [exact H | exact (averages_guarded 0 absentOnly H)].
Defined.

End Averages.

(** ** The attendance chart *)

Module AttendanceChart.
Import Js DateFns ReportsPage.
Open Scope Z_scope.

(** Every attendance record of the report data, entry after entry. *)
Definition allRecords (reportData : list ViewRecord) : list Attendance.t :=
  flat_map (fun entry => match records entry with
                         | Some rs => rs
                         | None => []
                         end) reportData.

(** The record carries a date that parses and falls on calendar day [day]. *)
Definition datedOn (tz : Z) (day : Z * Z * Z) (r : Attendance.t) : bool :=
  match Attendance.date r with
  | Some (ValidDate ms) => ymd_eqb (civil (dayNumber tz ms)) day
  | _ => false
  end.

(** The label [MM/dd] of a calendar day. *)
Definition dayLabel (day : Z * Z * Z) : string :=
  let '(_, m, d) := day in (twoDigits m ++ "/" ++ twoDigits d)%string.

Definition isPresent (r : Attendance.t) : bool :=
  (Attendance.status r =? "present")%string.
Definition isAbsent (r : Attendance.t) : bool :=
  (Attendance.status r =? "absent")%string.

(** The row the chart shows for calendar day number [dn]. *)
Definition rowOfDay (tz : Z) (reportData : list ViewRecord) (dn : Z) : ChartRow :=
  let day := civil dn in
  let dayRecords := filter (datedOn tz day) (allRecords reportData) in
  {| date := dayLabel day;
     present := count isPresent dayRecords;
     absent := count isAbsent dayRecords;
     late := count (chartLate tz) dayRecords |}.

Lemma pushDayRecords_filter tz day rs : forall acc,
  pushDayRecords tz day acc rs = acc ++ filter (datedOn tz day) rs.
Proof.
  unfold pushDayRecords.
  induction rs as [| r rs IH]; intros acc; cbn [fold_left filter].
  - now rewrite app_nil_r.
  - rewrite IH. unfold datedOn at 2.
    destruct (Attendance.date r) as [[ms |] |]; cbn [format_yyyyMMdd bind tryCatch];
      try reflexivity.
    destruct (ymd_eqb (civil (dayNumber tz ms)) day); [| reflexivity].
    now rewrite <- app_assoc.
Qed.

Lemma collectDayRecords_filter tz day reportData :
  collectDayRecords tz day reportData = filter (datedOn tz day) (allRecords reportData).
Proof.
  unfold collectDayRecords.
  enough (H : forall acc,
             fold_left (fun acc entry =>
                          match records entry with
                          | Some rs => pushDayRecords tz day acc rs
                          | None => acc
                          end) reportData acc
             = acc ++ filter (datedOn tz day) (allRecords reportData))
    by (apply (H [])).
  induction reportData as [| entry rest IH]; intros acc; cbn [fold_left allRecords flat_map].
  - now rewrite app_nil_r.
  - rewrite IH, filter_app. fold (allRecords rest).
    destruct (records entry) as [rs |]; cbn [filter app]; [| reflexivity].
    now rewrite pushDayRecords_filter, <- app_assoc.
Qed.

Lemma chartRow_valid tz reportData ms :
  chartRow tz reportData (ValidDate ms) = Ok (rowOfDay tz reportData (dayNumber tz ms)).
Proof.
  unfold chartRow, rowOfDay. cbn [format_yyyyMMdd format_MMdd bind].
  rewrite collectDayRecords_filter. unfold dayLabel.
  destruct (civil (dayNumber tz ms)) as [[y m] d]. reflexivity.
Qed.

Lemma mapM_ok {A B : Type} (f : A -> outcome B) (g : A -> B) (xs : list A) :
  (forall x, In x xs -> f x = Ok (g x)) -> mapM f xs = Ok (map g xs).
Proof.
  induction xs as [| x xs IH]; intros H; cbn [mapM map]; [reflexivity |].
  rewrite (H x (or_introl eq_refl)), IH by (intros y Hy; apply H; now right).
  reflexivity.
Qed.

Lemma dayNumber_days_earlier tz ms k :
  dayNumber tz (ms - k * msPerDay) = dayNumber tz ms - k.
Proof.
  unfold dayNumber, localMs.
  replace (ms - k * msPerDay + tz) with (ms + tz + (- k) * msPerDay) by ring.
  rewrite Z.div_add by (unfold msPerDay; lia). lia.
Qed.

(** C7 (counterexample).  When the selected range holds no attendance record
    the report data is empty and the rollup has no row at all, not 7. *)
Lemma empty_report_has_no_chart_rows :
  prepareAttendanceChartData 0 AttendanceReport [] (ValidDate 0) = Ok []
  /\ ~ (exists rows, prepareAttendanceChartData 0 AttendanceReport [] (ValidDate 0)
                     = Ok rows /\ List.length rows = 7%nat).
Proof.
  split; [reflexivity |].
  intros [rows [H Hlen]]. cbn in H. injection H as <-. discriminate Hlen.
Qed.

(** C7 (amended).  When the report data of the selected range is not empty,
    the rollup returns exactly 7 rows, one per calendar day from 6 days
    before today through today, whatever the selected range; the row of a
    day is labelled by that day and counts, over the records of all entries
    of the report data whose date parses and falls on that day, those with
    status present, those with status absent, and those the late test
    accepts. *)
Theorem attendance_chart_rows (tz : Z) (reportData : list ViewRecord) (nowMs : Z) :
  reportData <> [] ->
  prepareAttendanceChartData tz AttendanceReport reportData (ValidDate nowMs)
  = Ok (map (fun i => rowOfDay tz reportData (dayNumber tz nowMs - (6 - Z.of_nat i)))
            (seq 0 7))
  /\ List.length (map (fun i => rowOfDay tz reportData
                                  (dayNumber tz nowMs - (6 - Z.of_nat i)))
                      (seq 0 7)) = 7%nat.
Proof.
  intros Hne. split; [| reflexivity].
  unfold prepareAttendanceChartData.
  destruct reportData as [| entry rest]; [contradiction |].
  rewrite (mapM_ok _ (fun day => match day with
                                 | ValidDate ms =>
                                     rowOfDay tz (entry :: rest) (dayNumber tz ms)
                                 | InvalidDate =>
                                     rowOfDay tz (entry :: rest) 0
                                 end)).
  - rewrite map_map. f_equal. apply map_ext. intros i.
    cbn [subDays]. now rewrite dayNumber_days_earlier.
  - intros day Hin. apply in_map_iff in Hin as [i [<- _]].
    cbn [subDays]. apply chartRow_valid.
Qed.

Definition oneRecord : list ViewRecord :=
  [ {| user := None;
       records := Some [Lateness.presentAt 0 (Lateness.clock 9 30 0)];
       leaveRequests := None |} ].

Lemma attendance_chart_rows_witness :
  oneRecord <> []
  /\ prepareAttendanceChartData 0 AttendanceReport oneRecord (ValidDate msPerDay)
     = Ok (map (fun i => rowOfDay 0 oneRecord (dayNumber 0 msPerDay - (6 - Z.of_nat i)))
               (seq 0 7)).
Proof.
  assert (H : oneRecord <> []) by discriminate.
  split; [exact H |].
  exact (proj1 (attendance_chart_rows 0 oneRecord msPerDay H)).
Defined.

End AttendanceChart.

(** ** One view-record per employee *)

Module Reconcile.
Import Js DateFns ReportsPage Server.
Open Scope Z_scope.

(** The id of the employee a report row is about. *)
Definition rowUserId (r : ReportRow) : option Z :=
  match r with
  | Payroll p => Some (User.id (rowUser p))
  | View v => option_map User.id (user v)
  end.

Definition isRowOf (employee : User.t) (r : ReportRow) : bool :=
  match rowUserId r with
  | Some i => i =? User.id employee
  | None => false
  end.

(** No stored attendance record of the employee is dated within the range. *)
Definition noRecordInRange (st : Storage) (start end_ : Date) (employee : User.t)
  : Prop :=
  Forall (fun a => Attendance.userId a = User.id employee ->
                   inRange start end_ a = false)
         (attendanceRecords st).

Lemma row_of_mapped reportType reportData x :
  rowUserId
    (match reportType with
     | PayrollReport => Payroll (payrollRow x)
     | _ =>
         match find (isViewOf x) reportData with
         | Some existingData => View existingData
         | None => View (defaultView reportType x)
         end
     end) = Some (User.id x).
Proof.
  assert (Hv : rowUserId
                 match find (isViewOf x) reportData with
                 | Some existingData => View existingData
                 | None => View (defaultView reportType x)
                 end = Some (User.id x)).
  { destruct (find (isViewOf x) reportData) as [v |] eqn:Hfind; [| reflexivity].
    apply find_some in Hfind as [_ Hv]. unfold isViewOf in Hv. cbn.
    destruct (user v) as [u |]; [| discriminate].
    apply Z.eqb_eq in Hv. cbn. now rewrite Hv. }
  destruct reportType; [exact Hv | reflexivity | exact Hv].
Qed.

Lemma filter_none {A : Type} (p : A -> bool) (l : list A) :
  (forall y, In y l -> p y = false) -> filter p l = [].
Proof.
  induction l as [| y l IH]; intros H; cbn [filter]; [reflexivity |].
  rewrite (H y (or_introl eq_refl)). apply IH. intros z Hz. apply H. now right.
Qed.

Lemma one_with_id (employees : list User.t) (e : User.t) :
  NoDup (map User.id employees) -> In e employees ->
  List.length (filter (fun x => User.id x =? User.id e) employees) = 1%nat.
Proof.
  induction employees as [| x rest IH]; intros Hnd Hin; [destruct Hin |].
  cbn [map] in Hnd. inversion Hnd as [| ? ? Hnotin Hnd']; subst.
  cbn [filter]. destruct Hin as [-> | Hin].
  - rewrite Z.eqb_refl, filter_none; [reflexivity |].
    intros y Hy. apply Z.eqb_neq. intros Heq. apply Hnotin.
    rewrite <- Heq. now apply in_map.
  - destruct (User.id x =? User.id e) eqn:Heq.
    + apply Z.eqb_eq in Heq. exfalso. apply Hnotin. rewrite Heq. now apply in_map.
    + now apply IH.
Qed.

(** Every entry of the attendance report belongs to a user with at least one
    record in the range. *)
Lemma report_entries st start end_ (us : list User.t) : forall acc v,
  In v (fold_left
          (fun allAttendance user =>
             let userAttendance := getAttendanceByUser st (User.id user) in
             let filteredAttendance := filter (inRange start end_) userAttendance in
             match filteredAttendance with
             | _ :: _ =>
                 allAttendance ++
                 [{| user := Some (reportUser user);
                     records := Some filteredAttendance;
                     leaveRequests := None |}]
             | [] => allAttendance
             end) us acc) ->
  In v acc
  \/ exists u a, user v = Some (reportUser u)
                 /\ In a (attendanceRecords st)
                 /\ Attendance.userId a = User.id u
                 /\ inRange start end_ a = true.
Proof.
  induction us as [| u us IH]; intros acc v Hin; cbn [fold_left] in Hin;
    [now left |].
  apply IH in Hin as [Hin | Hex]; [| now right].
  cbv zeta in Hin.
  destruct (filter (inRange start end_) (getAttendanceByUser st (User.id u)))
    as [| a rest] eqn:Hf; [now left |].
  apply in_app_or in Hin as [Hin | [<- | []]]; [now left |].
  right. exists u, a. cbn [user].
  assert (Ha : In a (filter (inRange start end_)
                            (getAttendanceByUser st (User.id u))))
    by (rewrite Hf; now left).
  apply filter_In in Ha as [Ha Hrange].
  unfold getAttendanceByUser in Ha. apply filter_In in Ha as [Ha Hid].
  apply Z.eqb_eq in Hid. auto.
Qed.

(** C6.  With employee ids distinct, the combined report data holds exactly
    one row for every employee, whatever the report type and the fetched
    report data; and an employee without any stored attendance record in the
    queried range, for whom the server's attendance report has no entry,
    gets the default view-record with an empty records list. *)
Theorem one_view_record_per_employee (employees : list User.t) (e : User.t) :
  NoDup (map User.id employees) -> In e employees ->
  (forall reportType reportData,
     List.length (filter (isRowOf e)
                         (allEmployeeReportData reportType employees reportData))
     = 1%nat)
  /\ (forall st start end_ dept,
        noRecordInRange st start end_ e ->
        In (View {| user := Some e; records := Some []; leaveRequests := None |})
           (allEmployeeReportData AttendanceReport employees
              (fetched (attendanceReport st
                          {| startDate := Some start; endDate := Some end_;
                             departmentId := dept |})))).
Proof.
  intros Hnd Hin. split.
  - intros reportType reportData. unfold allEmployeeReportData.
    rewrite <- (one_with_id employees e Hnd Hin).
    induction employees as [| x rest IH]; [reflexivity |].
    cbn [map filter]. unfold isRowOf at 1. rewrite row_of_mapped.
    assert (Hrest : List.length
                      (filter (isRowOf e)
                         (map (fun employee =>
                                 match reportType with
                                 | PayrollReport => Payroll (payrollRow employee)
                                 | _ =>
                                     match find (isViewOf employee) reportData with
                                     | Some existingData => View existingData
                                     | None => View (defaultView reportType employee)
                                     end
                                 end) rest))
                    = List.length (filter (fun x => User.id x =? User.id e) rest)).
    { clear IH Hnd Hin. induction rest as [| y rest IH]; [reflexivity |].
      cbn [map filter]. unfold isRowOf at 1. rewrite row_of_mapped.
      destruct (User.id y =? User.id e); cbn [List.length]; now rewrite IH. }
    destruct (User.id x =? User.id e); cbn [List.length]; now rewrite Hrest.
  - intros st start end_ dept Hnone. unfold allEmployeeReportData.
    apply in_map_iff. exists e. split; [| exact Hin].
    destruct (find (isViewOf e) _) as [v |] eqn:Hfind; [| reflexivity].
    exfalso. apply find_some in Hfind as [Hv Hid].
    unfold attendanceReport in Hv. cbn [startDate endDate departmentId fetched body] in Hv.
    apply in_map_iff in Hv as [v0 [<- Hv]].
    apply report_entries in Hv as [[] | [u [a [Hu [Ha [Hua Hr]]]]]].
    unfold isViewOf in Hid. cbn [viewOverJson user] in Hid.
    rewrite Hu in Hid. cbn [reportUser User.id] in Hid.
    apply Z.eqb_eq in Hid.
    unfold noRecordInRange in Hnone. rewrite Forall_forall in Hnone.
    specialize (Hnone a Ha). rewrite Hua, Hid in Hnone.
    rewrite (Hnone eq_refl) in Hr. discriminate Hr.
Qed.

Definition asha : User.t :=
  {| User.id := 1; User.firstName := "Asha"; User.lastName := "Rao";
     User.position := None; User.departmentId := Some 2; User.salary := None |}.
Definition ravi : User.t :=
  {| User.id := 2; User.firstName := "Ravi"; User.lastName := "Iyer";
     User.position := None; User.departmentId := Some 2; User.salary := None |}.

(** Ravi checked in on day 0; Asha has no record. *)
Definition store : Storage :=
  {| users := [asha; ravi];
     attendanceRecords :=
       [ {| Attendance.id := 1; Attendance.userId := 2;
            Attendance.checkInTime := Some (ValidDate 1000);
            Attendance.checkOutTime := None;
            Attendance.date := Some (ValidDate 1000);
            Attendance.status := "present";
            Attendance.notes := None |} ];
     currentAttendanceId := 2 |}.

Lemma one_view_record_per_employee_witness :
  NoDup (map User.id [asha; ravi]) /\ In asha [asha; ravi]
  /\ noRecordInRange store (ValidDate 0) (ValidDate msPerDay) asha
  /\ List.length (filter (isRowOf asha)
                    (allEmployeeReportData AttendanceReport [asha; ravi]
                       (fetched (attendanceReport store
                                   {| startDate := Some (ValidDate 0);
                                      endDate := Some (ValidDate msPerDay);
                                      departmentId := None |})))) = 1%nat
  /\ In (View {| user := Some asha; records := Some []; leaveRequests := None |})
        (allEmployeeReportData AttendanceReport [asha; ravi]
           (fetched (attendanceReport store
                       {| startDate := Some (ValidDate 0);
                          endDate := Some (ValidDate msPerDay);
                          departmentId := None |}))).
Proof.
  assert (Hnd : NoDup (map User.id [asha; ravi])).
  { cbn. constructor; [intros [H | []]; discriminate H |].
    constructor; [intros [] | constructor]. }
  assert (Hin : In asha [asha; ravi]) by (now left).
  assert (Hnone : noRecordInRange store (ValidDate 0) (ValidDate msPerDay) asha).
  { constructor; [intros H; discriminate H | constructor]. }
  pose proof (one_view_record_per_employee [asha; ravi] asha Hnd Hin) as [H1 H2].
  split; [exact Hnd |]. split; [exact Hin |]. split; [exact Hnone |].
  split; [apply H1 |].
  apply (H2 store (ValidDate 0) (ValidDate msPerDay) None Hnone).
Defined.

End Reconcile.

(** ** Check-in *)

Module CheckIn.
Import Js DateFns Server.
Open Scope Z_scope.

(** The record carries a date that parses and falls on calendar day [day]. *)
Definition onDay (tz : Z) (day : Z * Z * Z) (r : Attendance.t) : bool :=
  match Attendance.date r with
  | Some (ValidDate ms) => ReportsPage.ymd_eqb (civil (dayNumber tz ms)) day
  | _ => false
  end.

(** The records of employee [u] dated on [day], in stored order. *)
Definition recordsOf (tz u : Z) (day : Z * Z * Z) (recs : list Attendance.t)
  : list Attendance.t :=
  filter (fun r => (Attendance.userId r =? u) && onDay tz day r) recs.



(** The record a successful check-in stores. *)
Definition checkedIn (st : Storage) (userId nowMs : Z) : Attendance.t :=
  {| Attendance.id := currentAttendanceId st;
     Attendance.userId := userId;
     Attendance.checkInTime := Some (ValidDate nowMs);
     Attendance.checkOutTime := None;
     Attendance.date := Some (ValidDate nowMs);
     Attendance.status := "present";
     Attendance.notes := Some ""%string |}.

Lemma ymd_eqb_eq a b : ReportsPage.ymd_eqb a b = true <-> a = b.
Proof.
  destruct a as [[y1 m1] d1], b as [[y2 m2] d2]. unfold ReportsPage.ymd_eqb.
  rewrite !andb_true_iff, !Z.eqb_eq. split.
  - intros [[-> ->] ->]. reflexivity.
  - intros H. injection H as -> -> ->. auto.
Qed.

Lemma find_filter {A : Type} (p q : A -> bool) (l : list A) :
  find p (filter q l) = hd_error (filter (fun r => p r && q r) l).
Proof.
  induction l as [| x l IH]; [reflexivity |].
  cbn [filter]. destruct (q x), (p x) eqn:Hp; cbn [andb find hd_error];
    rewrite ?Hp; auto.
Qed.

Lemma today_records tz st userId nowMs :
  find (fun record => Attendance.userId record =? userId)
       (getAttendanceByDate tz st (ValidDate nowMs))
  = hd_error (recordsOf tz userId (civil (dayNumber tz nowMs)) (attendanceRecords st)).
Proof.
  unfold getAttendanceByDate, recordsOf. rewrite find_filter. f_equal.
  apply filter_ext. intros r. f_equal. unfold onDay.
  destruct (Attendance.date r) as [[ms |] |]; reflexivity.
Qed.




(** Employee 7 has checked in today; employee 8 has no record. *)
Definition checkedInStore : Storage :=
  {| users := [];
     attendanceRecords :=
       [ {| Attendance.id := 1; Attendance.userId := 7;
            Attendance.checkInTime := Some (ValidDate 500);
            Attendance.checkOutTime := None;
            Attendance.date := Some (ValidDate 500);
            Attendance.status := "present";
            Attendance.notes := Some ""%string |} ];
     currentAttendanceId := 2 |}.


End CheckIn.

(** ** Leave balances *)

Module LeaveBalance.
Import Js DateFns LeavePage.
Open Scope Z_scope.

(** *** The balance as the specification words it *)

(** The fixed yearly quota of the four leave types that have one. *)
Definition quota (ty : LeaveType.t) : option Z :=
  match ty with
  | LeaveType.annual => Some 20
  | LeaveType.sick => Some 10
  | LeaveType.personal => Some 5
  | LeaveType.halfday => Some 12
  | _ => None
  end.

(** The [n] consecutive day numbers from [a]. *)
Definition daysFrom (a : Z) (n : nat) : list Z :=
  map (fun i => a + Z.of_nat i) (seq 0 n).

(** The calendar days from the day of [s] to the day of [e], inclusive. *)
Definition calendarDays (tz s e : Z) : list Z :=
  daysFrom (dayNumber tz s) (Z.to_nat (dayNumber tz e - dayNumber tz s + 1)).

(** Neither Sunday (0) nor Saturday (6). *)
Definition isBusinessDay (dn : Z) : bool :=
  negb ((weekday dn =? 0) || (weekday dn =? 6)).

(** The number of business days in [[startDate, endDate]]. *)
Definition businessDays (tz : Z) (r : LeaveRequest.t) : Z :=
  match LeaveRequest.startDate r, LeaveRequest.endDate r with
  | ValidDate s, ValidDate e =>
      Z.of_nat (List.length (filter isBusinessDay (calendarDays tz s e)))
  | _, _ => 0
  end.

(** The request is approved and of type [ty]. *)
Definition counts (ty : LeaveType.t) (r : LeaveRequest.t) : bool :=
  isApproved (LeaveRequest.status r) && LeaveType.eqb (LeaveRequest.type r) ty.

(** What one request consumes: 1 for a half day, its business days
    otherwise. *)
Definition unitsOf (tz : Z) (ty : LeaveType.t) (r : LeaveRequest.t) : Z :=
  match ty with
  | LeaveType.halfday => 1
  | _ => businessDays tz r
  end.

Definition usedSpec (tz : Z) (requests : list LeaveRequest.t) (ty : LeaveType.t) : Z :=
  fold_right Z.add 0 (map (unitsOf tz ty) (filter (counts ty) requests)).

(** Both dates parse and the end is not before the start. *)
Definition wellFormed (r : LeaveRequest.t) : Prop :=
  exists s e, LeaveRequest.startDate r = ValidDate s
              /\ LeaveRequest.endDate r = ValidDate e
              /\ s <= e.

(** *** The loop of [eachDayOfInterval] *)

Section Loop.
Variable tz : Z.
Variable badInterval : Date -> Date -> outcome (list Date).

(** Local midnight of day number [dn]. *)
Definition midnight (dn : Z) : Z := dn * msPerDay - tz.

Lemma msPerDay_pos : 0 < msPerDay.
Proof. reflexivity. Qed.

Lemma startOfDay_midnight s : startOfDayMs tz s = midnight (dayNumber tz s).
Proof.
  unfold startOfDayMs, midnight, dayNumber, localMs.
  pose proof (Z.div_mod (s + tz) msPerDay) as H.
  specialize (H ltac:(unfold msPerDay; lia)). lia.
Qed.

Lemma midnight_le dn e : midnight dn <= e <-> dn <= dayNumber tz e.
Proof.
  unfold midnight, dayNumber, localMs. pose proof msPerDay_pos as Hpos. split.
  - intros H. apply Z.div_le_lower_bound; lia.
  - intros H. pose proof (Z.mul_div_le (e + tz) msPerDay Hpos). nia.
Qed.

Lemma dayNumber_midnight dn : dayNumber tz (midnight dn) = dn.
Proof.
  unfold dayNumber, midnight, localMs.
  replace (dn * msPerDay - tz + tz) with (dn * msPerDay) by ring.
  apply Z.div_mul. unfold msPerDay. lia.
Qed.

Lemma daysFrom_S a n : daysFrom a (S n) = a :: daysFrom (a + 1) n.
Proof.
  unfold daysFrom. cbn [seq map]. f_equal; [lia |].
  rewrite <- seq_shift, map_map. apply map_ext. intros i. lia.
Qed.

Lemma eachDayLoop_days e : forall n dn,
  Z.of_nat n = dayNumber tz e - dn + 1 ->
  eachDayLoop (midnight dn) e = map (fun d => ValidDate (midnight d)) (daysFrom dn n).
Proof.
  induction n as [| n IH]; intros dn Hn; simp eachDayLoop;
    destruct (Z_le_dec (midnight dn) e) as [Hle | Hgt];
    cbn [eachDayLoop_unfold_clause_1].
  - apply midnight_le in Hle. lia.
  - reflexivity.
  - rewrite daysFrom_S. cbn [map]. f_equal.
    replace (midnight dn + msPerDay) with (midnight (dn + 1))
      by (unfold midnight; ring).
    apply IH. lia.
  - exfalso. apply Hgt, midnight_le. lia.
Qed.

Lemma isWeekend_midnight dn :
  negb (isWeekend tz (ValidDate (midnight dn))) = isBusinessDay dn.
Proof.
  unfold isWeekend, isBusinessDay. cbn [getDay]. now rewrite dayNumber_midnight.
Qed.

Lemma business_days_of_loop (days : list Z) :
  List.length (filter (fun day => negb (isWeekend tz day))
                      (map (fun d => ValidDate (midnight d)) days))
  = List.length (filter isBusinessDay days).
Proof.
  induction days as [| d days IH]; [reflexivity |].
  cbn [map filter]. rewrite isWeekend_midnight.
  destruct (isBusinessDay d); cbn [List.length]; now rewrite IH.
Qed.

(** What one request adds to the running total. *)
Definition cost (ty : LeaveType.t) (r : LeaveRequest.t) : outcome Z :=
  consume tz badInterval ty 0 r.

Lemma consume_cost ty total r :
  consume tz badInterval ty total r
  = bind (cost ty r) (fun c => Ok (total + c)).
Proof.
  unfold cost, consume.
  destruct ty; try reflexivity;
    destruct (eachDayOfInterval tz badInterval _ _); reflexivity.
Qed.

Lemma cost_wellFormed ty r :
  (ty <> LeaveType.halfday -> wellFormed r) ->
  cost ty r = Ok (unitsOf tz ty r).
Proof.
  intros Hwf. unfold cost, consume, unitsOf.
  destruct ty; try reflexivity;
    (destruct Hwf as [s [e [Hs [He Hle]]]]; [discriminate |];
     unfold businessDays, eachDayOfInterval; rewrite Hs, He;
     rewrite (proj2 (Z.leb_le s e) Hle); cbn [bind];
     rewrite startOfDay_midnight;
     rewrite (eachDayLoop_days e
                (Z.to_nat (dayNumber tz e - dayNumber tz s + 1)));
     [ unfold calendarDays; now rewrite business_days_of_loop
     | assert (dayNumber tz s <= dayNumber tz e)
         by (unfold dayNumber, localMs; apply Z.div_le_mono;
             [exact msPerDay_pos | lia]);
       lia ]).
Qed.

Lemma reduce_sum ty (u : LeaveRequest.t -> Z) (l : list LeaveRequest.t) :
  Forall (fun r => cost ty r = Ok (u r)) l ->
  forall init,
    reduce (consume tz badInterval ty) l init
    = Ok (init + fold_right Z.add 0 (map u l)).
Proof.
  unfold reduce.
  induction 1 as [| r l Hr _ IH]; intros init; cbn [fold_left map fold_right].
  - f_equal. lia.
  - cbn [bind]. rewrite consume_cost, Hr. cbn [bind]. rewrite IH. f_equal. lia.
Qed.

Lemma step_swap ty (acc : outcome Z) x y :
  bind (bind acc (fun b => consume tz badInterval ty b x))
       (fun b => consume tz badInterval ty b y)
  = bind (bind acc (fun b => consume tz badInterval ty b y))
         (fun b => consume tz badInterval ty b x).
Proof.
  destruct acc as [b |]; cbn [bind]; [| reflexivity].
  rewrite (consume_cost ty b x), (consume_cost ty b y).
  destruct (cost ty x) as [cx |] eqn:Hx, (cost ty y) as [cy |] eqn:Hy;
    cbn [bind]; rewrite ?consume_cost, ?Hx, ?Hy; cbn [bind]; try reflexivity.
  f_equal. lia.
Qed.

Lemma fold_permutation ty (l l' : list LeaveRequest.t) :
  Permutation l l' ->
  forall acc,
    fold_left (fun acc x => bind acc (fun b => consume tz badInterval ty b x)) l acc
    = fold_left (fun acc x => bind acc (fun b => consume tz badInterval ty b x)) l' acc.
Proof.
  induction 1 as [| x l l' _ IH | x y l | l l' l'' _ IH1 _ IH2]; intros acc;
    cbn [fold_left].
  - reflexivity.
  - apply IH.
  - now rewrite step_swap.
  - now rewrite IH1.
Qed.

End Loop.

Lemma filter_permutation {A : Type} (p : A -> bool) (l l' : list A) :
  Permutation l l' -> Permutation (filter p l) (filter p l').
Proof.
  induction 1 as [| x l l' _ IH | x y l | l l' l'' _ IH1 _ IH2]; cbn [filter].
  - constructor.
  - destruct (p x); [now constructor | exact IH].
  - destruct (p x), (p y); try reflexivity. constructor.
  - now transitivity (filter p l').
Qed.

(** The balance of a leave type as worded: quota, used units and their
    difference for the four types with a quota, all zero for the two
    without. *)
Definition balanceSpec (tz : Z) (requests : list LeaveRequest.t) (ty : LeaveType.t)
  : Balance :=
  match quota ty with
  | Some q => {| total := q;
                 used := usedSpec tz requests ty;
                 remaining := q - usedSpec tz requests ty |}
  | None => {| total := 0; used := 0; remaining := 0 |}
  end.

(** An approved unpaid leave, Monday 5 to Wednesday 7 January 1970. *)
Definition unpaidThreeDays : LeaveRequest.t :=
  {| LeaveRequest.id := 1; LeaveRequest.userId := 1;
     LeaveRequest.type := LeaveType.unpaid;
     LeaveRequest.startDate := ValidDate (4 * msPerDay);
     LeaveRequest.endDate := ValidDate (6 * msPerDay);
     LeaveRequest.status := Some approved |}.

(** An approved annual leave whose end, Monday 5 January 1970, lies before
    its start, Friday 9 January. *)
Definition reversedAnnual : LeaveRequest.t :=
  {| LeaveRequest.id := 2; LeaveRequest.userId := 1;
     LeaveRequest.type := LeaveType.annual;
     LeaveRequest.startDate := ValidDate (8 * msPerDay);
     LeaveRequest.endDate := ValidDate (4 * msPerDay);
     LeaveRequest.status := Some approved |}.

(** The two behaviours of [eachDayOfInterval] outside [start <= end]:
    date-fns 2 throws a [RangeError]; date-fns 3 walks a reversed interval
    from its end to its start and returns the days in reverse, and returns
    no day when a date is invalid. *)
Definition release2 : Date -> Date -> outcome (list Date) :=
  fun _ _ => Throw.

Definition release3 (tz : Z) (start end_ : Date) : outcome (list Date) :=
  match start, end_ with
  | ValidDate s, ValidDate e => Ok (rev (eachDayLoop (startOfDayMs tz e) s))
  | _, _ => Ok []
  end.

(** C3 (counterexample).  For the leave type unpaid, with one approved
    unpaid leave of three business days, the calculator returns total 0,
    used 0 and remaining 0: [used] is not the sum over the approved
    requests of that type, which is 3, and there is no quota.  And for an
    approved annual leave whose end lies before its start, where the days
    in [[startDate, endDate]] are none, the calculator throws with
    date-fns 2 and charges 5 days with date-fns 3. *)
Lemma unpaid_leave_is_not_summed :
  calculateLeaveBalance 0 release2 [unpaidThreeDays] LeaveType.unpaid
  = Ok {| total := 0; used := 0; remaining := 0 |}
  /\ usedSpec 0 [unpaidThreeDays] LeaveType.unpaid = 3
  /\ quota LeaveType.unpaid = None
  /\ ~ (exists b, calculateLeaveBalance 0 release2 [unpaidThreeDays] LeaveType.unpaid
                  = Ok b
                  /\ used b = usedSpec 0 [unpaidThreeDays] LeaveType.unpaid)
  /\ usedSpec 0 [reversedAnnual] LeaveType.annual = 0
  /\ calculateLeaveBalance 0 release2 [reversedAnnual] LeaveType.annual = Throw
  /\ calculateLeaveBalance 0 (release3 0) [reversedAnnual] LeaveType.annual
     = Ok {| total := 20; used := 5; remaining := 15 |}.
Proof.
  split; [reflexivity |]. split; [reflexivity |]. split; [reflexivity |].
  split; [| repeat split; reflexivity].
  intros [b [Hb Hused]]. cbn in Hb. injection Hb as <-. discriminate Hused.
Qed.

(** C3 (amended).  For every list of leave requests and every leave type,
    when the approved requests of that type have dates that parse with the
    end not before the start (not needed for half days): for annual, sick,
    personal and halfday the balance calculator returns [total] = the quota
    (20, 10, 5, 12), [used] = the sum over the approved requests of that
    type of 1 for a half day and of the number of days other than Saturday
    and Sunday in [[startDate, endDate]] otherwise, and
    [remaining = total - used], negative when more than the quota is used;
    for unpaid and other, which have no quota, it returns 0, 0 and 0. *)
Theorem leave_balance (tz : Z) (badInterval : Date -> Date -> outcome (list Date))
    (requests : list LeaveRequest.t) (ty : LeaveType.t) :
  (ty <> LeaveType.halfday ->
   Forall (fun r => counts ty r = true -> wellFormed r) requests) ->
  calculateLeaveBalance tz badInterval requests ty
  = Ok (balanceSpec tz requests ty)
  /\ (forall q, quota ty = Some q ->
        calculateLeaveBalance tz badInterval requests ty
        = Ok {| total := q;
                used := usedSpec tz requests ty;
                remaining := q - usedSpec tz requests ty |}).
Proof.
  intros Hwf.
  assert (Hused : usedUnits tz badInterval requests ty = Ok (usedSpec tz requests ty)).
  { unfold usedUnits, usedSpec. fold (counts ty).
    rewrite (reduce_sum tz badInterval ty (unitsOf tz ty)); [reflexivity |].
    apply Forall_forall. intros r Hr. apply filter_In in Hr as [Hin Hc].
    apply cost_wellFormed. intros Hty. specialize (Hwf Hty).
    rewrite Forall_forall in Hwf. now apply Hwf. }
  assert (Hall : calculateLeaveBalance tz badInterval requests ty
                 = Ok (balanceSpec tz requests ty)).
  { unfold calculateLeaveBalance, balanceSpec. rewrite Hused. cbn [bind].
    destruct ty; reflexivity. }
  split; [exact Hall |].
  intros q Hq. rewrite Hall. unfold balanceSpec. now rewrite Hq.
Qed.

(** Two approved weeks of personal leave, Monday 5 to Friday 16 January
    1970, a rejected one, and an approved sick day. *)
Definition twoWeeks : list LeaveRequest.t :=
  [ {| LeaveRequest.id := 1; LeaveRequest.userId := 1;
       LeaveRequest.type := LeaveType.personal;
       LeaveRequest.startDate := ValidDate (4 * msPerDay);
       LeaveRequest.endDate := ValidDate (15 * msPerDay);
       LeaveRequest.status := Some approved |};
    {| LeaveRequest.id := 2; LeaveRequest.userId := 1;
       LeaveRequest.type := LeaveType.personal;
       LeaveRequest.startDate := ValidDate (18 * msPerDay);
       LeaveRequest.endDate := ValidDate (19 * msPerDay);
       LeaveRequest.status := Some rejected |};
    {| LeaveRequest.id := 3; LeaveRequest.userId := 1;
       LeaveRequest.type := LeaveType.sick;
       LeaveRequest.startDate := ValidDate (25 * msPerDay);
       LeaveRequest.endDate := ValidDate (25 * msPerDay);
       LeaveRequest.status := Some approved |} ].

Lemma twoWeeks_wellFormed :
  Forall (fun r => counts LeaveType.personal r = true -> wellFormed r) twoWeeks.
Proof.
  repeat constructor; intros H; try discriminate H.
  exists (4 * msPerDay), (15 * msPerDay). repeat split. vm_compute. discriminate.
Qed.

Lemma leave_balance_witness :
  Forall (fun r => counts LeaveType.personal r = true -> wellFormed r) twoWeeks
  /\ quota LeaveType.personal = Some 5
  /\ calculateLeaveBalance 0 (fun _ _ => Throw) twoWeeks LeaveType.personal
     = Ok {| total := 5; used := 10; remaining := -5 |}
  /\ calculateLeaveBalance 0 (fun _ _ => Throw) twoWeeks LeaveType.other
     = Ok {| total := 0; used := 0; remaining := 0 |}.
Proof.
  split; [exact twoWeeks_wellFormed |]. split; [reflexivity |]. split.
  - exact (proj2 (leave_balance 0 (fun _ _ => Throw) twoWeeks LeaveType.personal
                    (fun _ => twoWeeks_wellFormed)) 5 eq_refl).
  - apply (proj1 (leave_balance 0 (fun _ _ => Throw) twoWeeks LeaveType.other
                    ltac:(intros _; repeat constructor; intros H; discriminate H))).
Defined.

(** C8.  Reordering the list of leave requests changes neither the used
    count the balance calculator computes for a leave type nor the balance
    it returns: the business-day counts of the requests are summed, and the
    sum does not depend on the order. *)
Theorem used_is_order_independent (tz : Z)
    (badInterval : Date -> Date -> outcome (list Date))
    (requests requests' : list LeaveRequest.t) (ty : LeaveType.t) :
  Permutation requests requests' ->
  usedUnits tz badInterval requests ty = usedUnits tz badInterval requests' ty
  /\ calculateLeaveBalance tz badInterval requests ty
     = calculateLeaveBalance tz badInterval requests' ty.
Proof.
  intros Hperm.
  assert (Hused : usedUnits tz badInterval requests ty
                  = usedUnits tz badInterval requests' ty).
  { unfold usedUnits, reduce. apply fold_permutation.
    now apply filter_permutation. }
  split; [exact Hused |].
  unfold calculateLeaveBalance. now rewrite Hused.
Qed.

(** Three approved annual leaves that do not overlap: Monday 5 to Wednesday
    7, Friday 9 to Monday 12, and Thursday 15 January 1970. *)
Definition annualLeave (i from to : Z) : LeaveRequest.t :=
  {| LeaveRequest.id := i; LeaveRequest.userId := 1;
     LeaveRequest.type := LeaveType.annual;
     LeaveRequest.startDate := ValidDate (from * msPerDay);
     LeaveRequest.endDate := ValidDate (to * msPerDay);
     LeaveRequest.status := Some approved |}.

Lemma used_is_order_independent_witness :
  Permutation [annualLeave 1 4 6; annualLeave 2 8 11; annualLeave 3 14 14]
              [annualLeave 3 14 14; annualLeave 1 4 6; annualLeave 2 8 11]
  /\ usedUnits 0 (fun _ _ => Throw)
       [annualLeave 1 4 6; annualLeave 2 8 11; annualLeave 3 14 14] LeaveType.annual
     = Ok 6
  /\ usedUnits 0 (fun _ _ => Throw)
       [annualLeave 3 14 14; annualLeave 1 4 6; annualLeave 2 8 11] LeaveType.annual
     = Ok 6.
Proof.
  assert (Hperm : Permutation
                    [annualLeave 1 4 6; annualLeave 2 8 11; annualLeave 3 14 14]
                    [annualLeave 3 14 14; annualLeave 1 4 6; annualLeave 2 8 11]).
  { apply Permutation_sym.
    apply (Permutation_cons_app [annualLeave 1 4 6; annualLeave 2 8 11] []).
    rewrite app_nil_r. apply Permutation_refl. }
  split; [exact Hperm |].
  pose proof (used_is_order_independent 0 (fun _ _ => Throw) _ _
                LeaveType.annual Hperm) as [Hused _].
  split; [| rewrite <- Hused]; reflexivity.
Defined.

End LeaveBalance.

(* ===================================================================== *)
(** * Part III: the rest of the attendance and leave code                 *)
(* ===================================================================== *)

(** ** Attendance storage and check-out ([src/server/routes.ts]) *)

Module AttendanceStore.
Import Js DateFns Server.
Open Scope Z_scope.

(** A [Partial<Attendance>]: [None] is a key the object does not carry. *)
Record AttendancePatch : Type := mkPatch {
  pId : option Z;
  pUserId : option Z;
  pCheckInTime : option (option Date);
  pCheckOutTime : option (option Date);
  pDate : option (option Date);
  pStatus : option string;
  pNotes : option (option string)
}.

Definition orElse {A : Type} (o : option A) (d : A) : A :=
  match o with
  | Some x => x
  | None => d
  end.

(** [{ ...record, ...attendanceData }]. *)
Definition merge (record : Attendance.t) (attendanceData : AttendancePatch)
  : Attendance.t :=
  {| Attendance.id := orElse (pId attendanceData) (Attendance.id record);
     Attendance.userId := orElse (pUserId attendanceData) (Attendance.userId record);
     Attendance.checkInTime :=
       orElse (pCheckInTime attendanceData) (Attendance.checkInTime record);
     Attendance.checkOutTime :=
       orElse (pCheckOutTime attendanceData) (Attendance.checkOutTime record);
     Attendance.date := orElse (pDate attendanceData) (Attendance.date record);
     Attendance.status := orElse (pStatus attendanceData) (Attendance.status record);
     Attendance.notes := orElse (pNotes attendanceData) (Attendance.notes record) |}.

(** [xs.findIndex(p)]; [None] is -1. *)
Fixpoint findIndex {A : Type} (p : A -> bool) (xs : list A) : option nat :=
  match xs with
  | [] => None
  | x :: rest =>
      if p x then Some 0%nat
      else match findIndex p rest with
           | Some i => Some (S i)
           | None => None
           end
  end.

(** [xs[index] = v] for an index within the array. *)
Fixpoint setAt {A : Type} (xs : list A) (index : nat) (v : A) : list A :=
  match xs, index with
  | [], _ => []
  | _ :: rest, O => v :: rest
  | x :: rest, S i => x :: setAt rest i v
  end.

Definition getAttendance (st : Storage) (id : Z) : option Attendance.t :=
  find (fun a => Attendance.id a =? id) (attendanceRecords st).

Definition updateAttendance (st : Storage) (id : Z) (attendanceData : AttendancePatch)
  : option Attendance.t * Storage :=
  match findIndex (fun a => Attendance.id a =? id) (attendanceRecords st) with
  | None => (None, st)
  | Some index =>
      match nth_error (attendanceRecords st) index with
      | Some record =>
          let updatedAttendance := merge record attendanceData in
          (Some updatedAttendance,
           {| users := users st;
              attendanceRecords := setAt (attendanceRecords st) index updatedAttendance;
              currentAttendanceId := currentAttendanceId st |})
      | None => (None, st)
      end
  end.

(** The patch [{ checkOutTime: now }]. *)
Definition checkOutPatch (now : Date) : AttendancePatch :=
  {| pId := None; pUserId := None; pCheckInTime := None;
     pCheckOutTime := Some (Some now); pDate := None; pStatus := None;
     pNotes := None |}.

(** [POST /api/attendance/check-out]; the reply to a successful check-out is
    whatever [updateAttendance] returned. *)
Definition checkOut (tz : Z) (st : Storage) (session : option Z) (nowMs : Z)
  : Response (option Attendance.t) * Storage :=
  match session with
  | None => (mkResponse 401 (Message "Unauthorized"), st)
  | Some userId =>
      let now := ValidDate nowMs in
      let todayRecords := getAttendanceByDate tz st now in
      match find (fun record => Attendance.userId record =? userId) todayRecords with
      | None => (mkResponse 404 (Message "No check-in record found for today"), st)
      | Some userTodayRecord =>
          match Attendance.checkOutTime userTodayRecord with
          | Some _ => (mkResponse 400 (Message "Already checked out today"), st)
          | None =>
              let '(attendance, st') :=
                updateAttendance st (Attendance.id userTodayRecord)
                                 (checkOutPatch now) in
              (mkResponse 200 (Json attendance), st')
          end
      end
  end.

(** The stored ids are distinct and below the id counter. *)
Definition wellNumbered (st : Storage) : Prop :=
  NoDup (map Attendance.id (attendanceRecords st))
  /\ Forall (fun a => Attendance.id a < currentAttendanceId st) (attendanceRecords st).

(** A record with its check-out time cleared. *)
Definition withoutCheckOut (a : Attendance.t) : Attendance.t :=
  {| Attendance.id := Attendance.id a;
     Attendance.userId := Attendance.userId a;
     Attendance.checkInTime := Attendance.checkInTime a;
     Attendance.checkOutTime := None;
     Attendance.date := Attendance.date a;
     Attendance.status := Attendance.status a;
     Attendance.notes := Attendance.notes a |}.

(** *** Lists *)

Lemma findIndex_find {A : Type} (p : A -> bool) (xs : list A) :
  match findIndex p xs with
  | Some i => exists x, nth_error xs i = Some x /\ find p xs = Some x
  | None => find p xs = None
  end.
Proof.
  induction xs as [| x rest IH]; cbn [findIndex find]; [reflexivity |].
  destruct (p x); [exists x; now split |].
  destruct (findIndex p rest) as [i |]; [| exact IH].
  destruct IH as [y [Hn Hf]]. exists y. now split.
Qed.

Lemma setAt_length {A : Type} (xs : list A) : forall i v,
  List.length (setAt xs i v) = List.length xs.
Proof.
  induction xs as [| x rest IH]; intros [| i] v; cbn [setAt List.length];
    try reflexivity. now rewrite IH.
Qed.

Lemma setAt_map {A B : Type} (f : A -> B) (xs : list A) : forall i v x,
  nth_error xs i = Some x -> f v = f x -> map f (setAt xs i v) = map f xs.
Proof.
  induction xs as [| y rest IH]; intros [| i] v x Hn Hf; cbn in Hn;
    try discriminate Hn; cbn [setAt map].
  - injection Hn as ->. now rewrite Hf.
  - f_equal. now apply (IH i v x).
Qed.

Lemma find_setAt {A : Type} (p : A -> bool) (xs : list A) : forall i v,
  findIndex p xs = Some i -> p v = true -> find p (setAt xs i v) = Some v.
Proof.
  induction xs as [| x rest IH]; intros i v Hi Hv; cbn [findIndex] in Hi;
    [discriminate Hi |].
  destruct (p x) eqn:Hx.
  - injection Hi as <-. cbn [setAt find]. now rewrite Hv.
  - destruct (findIndex p rest) as [j |]; [| discriminate Hi].
    injection Hi as <-. cbn [setAt find]. rewrite Hx. now apply IH.
Qed.

Lemma find_setAt_other {A : Type} (q : A -> bool) (xs : list A) : forall i v x,
  nth_error xs i = Some x -> q x = false -> q v = false ->
  find q (setAt xs i v) = find q xs.
Proof.
  induction xs as [| y rest IH]; intros [| i] v x Hn Hx Hv; cbn in Hn;
    try discriminate Hn; cbn [setAt find].
  - injection Hn as ->. now rewrite Hx, Hv.
  - destruct (q y); [reflexivity |]. now apply (IH i v x).
Qed.

Lemma findIndex_last {A : Type} (p : A -> bool) (xs : list A) (v : A) :
  (forall x, In x xs -> p x = false) -> p v = true ->
  findIndex p (xs ++ [v]) = Some (List.length xs).
Proof.
  induction xs as [| x rest IH]; intros Hnone Hv; cbn [app findIndex List.length].
  - now rewrite Hv.
  - rewrite (Hnone x (or_introl eq_refl)), IH; [reflexivity | | exact Hv].
    intros y Hy. apply Hnone. now right.
Qed.

Lemma setAt_last {A : Type} (xs : list A) (x v : A) :
  setAt (xs ++ [x]) (List.length xs) v = xs ++ [v].
Proof.
  induction xs as [| y rest IH]; cbn [app setAt List.length]; [reflexivity |].
  now rewrite IH.
Qed.

Lemma find_last {A : Type} (p : A -> bool) (xs : list A) (v : A) :
  (forall x, In x xs -> p x = false) -> find p (xs ++ [v]) = find p [v].
Proof.
  induction xs as [| x rest IH]; intros Hnone; cbn [app find]; [reflexivity |].
  rewrite (Hnone x (or_introl eq_refl)). apply IH. intros y Hy. apply Hnone.
  now right.
Qed.

Lemma find_append {A : Type} (p : A -> bool) (xs ys : list A) :
  find p (xs ++ ys) = match find p xs with
                      | Some x => Some x
                      | None => find p ys
                      end.
Proof.
  induction xs as [| x rest IH]; cbn [app find]; [reflexivity |].
  now destruct (p x).
Qed.

Lemma below_counter_not_counter (st : Storage) :
  Forall (fun a => Attendance.id a < currentAttendanceId st) (attendanceRecords st) ->
  forall x, In x (attendanceRecords st) ->
            (Attendance.id x =? currentAttendanceId st) = false.
Proof.
  intros H x Hx. rewrite Forall_forall in H. apply Z.eqb_neq.
  specialize (H x Hx). lia.
Qed.

Lemma withoutCheckOut_merge record now :
  withoutCheckOut (merge record (checkOutPatch now)) = withoutCheckOut record.
Proof. reflexivity. Qed.

(** *** Properties *)

(** X1.  Check-out never adds, removes or reorders attendance records, and
    never changes a field other than a check-out time; the users and the id
    counter stay as they are, and unless the reply is 200 the store is not
    changed at all. *)
Theorem check_out_only_sets_check_out_time (tz : Z) (st : Storage)
    (session : option Z) (nowMs : Z) :
  let '(reply, st') := checkOut tz st session nowMs in
  map withoutCheckOut (attendanceRecords st')
  = map withoutCheckOut (attendanceRecords st)
  /\ users st' = users st
  /\ currentAttendanceId st' = currentAttendanceId st
  /\ (statusCode reply <> 200 -> st' = st).
Proof.
  unfold checkOut.
  destruct session as [userId |]; [| now repeat split].
  destruct (find _ (getAttendanceByDate tz st (ValidDate nowMs))) as [r |];
    [| now repeat split].
  destruct (Attendance.checkOutTime r); [now repeat split |].
  unfold updateAttendance.
  destruct (findIndex _ (attendanceRecords st)) as [i |] eqn:Hi;
    [| cbn; repeat split; intros H; now elim H].
  destruct (nth_error (attendanceRecords st) i) as [x |] eqn:Hx;
    [| cbn; repeat split; intros H; now elim H].
  cbn [attendanceRecords users currentAttendanceId statusCode].
  split; [| repeat split; intros H; now elim H].
  apply (setAt_map withoutCheckOut _ i _ x Hx). apply withoutCheckOut_merge.
Qed.

(** X2.  In a store whose ids are below the id counter, for an employee
    without a record dated today: a check-in at [t1] followed by a check-out
    at [t2] of the same day answers 201 and then 200 with the one new record,
    which carries [t1] as check-in and [t2] as check-out and is stored after
    the old records; after that a second check-out answers 400 and a second
    check-in answers 400, both leaving the store as it is. *)
Theorem check_in_then_check_out (tz : Z) (st : Storage) (userId t1 t2 : Z) :
  Forall (fun a => Attendance.id a < currentAttendanceId st) (attendanceRecords st) ->
  CheckIn.recordsOf tz userId (civil (dayNumber tz t1)) (attendanceRecords st) = [] ->
  dayNumber tz t2 = dayNumber tz t1 ->
  let new := CheckIn.checkedIn st userId t1 in
  let done := merge new (checkOutPatch (ValidDate t2)) in
  let st2 := {| users := users st;
                attendanceRecords := attendanceRecords st ++ [done];
                currentAttendanceId := currentAttendanceId st + 1 |} in
  let '(reply1, st1) := checkIn tz st (Some userId) t1 in
  statusCode reply1 = 201
  /\ checkOut tz st1 (Some userId) t2 = (mkResponse 200 (Json (Some done)), st2)
  /\ checkOut tz st2 (Some userId) t2
     = (mkResponse 400 (Message "Already checked out today"), st2)
  /\ checkIn tz st2 (Some userId) t2
     = (mkResponse 400 (Message "Already checked in today"), st2).
Proof.
  intros Hbelow Hnone Hday new done st2.
  assert (Hmine : forall recs x,
             CheckIn.recordsOf tz userId (civil (dayNumber tz t1)) recs = [] ->
             Attendance.userId x = userId ->
             Attendance.date x = Some (ValidDate t1) ->
             hd_error (CheckIn.recordsOf tz userId (civil (dayNumber tz t1))
                                         (recs ++ [x])) = Some x).
  { intros recs x Hrecs Hu Hd. unfold CheckIn.recordsOf in *.
    rewrite filter_app, Hrecs. cbn [app filter]. unfold CheckIn.onDay.
    rewrite Hu, Hd, Z.eqb_refl.
    rewrite (proj2 (CheckIn.ymd_eqb_eq _ _) eq_refl). reflexivity. }
  unfold checkIn. rewrite CheckIn.today_records, Hnone. cbn [hd_error].
  cbv zeta. unfold createAttendance.
  cbn [insUserId insCheckInTime insCheckOutTime insDate insStatus insNotes].
  fold (CheckIn.checkedIn st userId t1). fold new.
  split; [reflexivity |].
  split; [| split].
  - unfold checkOut. rewrite CheckIn.today_records, Hday.
    cbn [attendanceRecords]. rewrite (Hmine _ new Hnone eq_refl eq_refl).
    cbn [Attendance.checkOutTime new CheckIn.checkedIn].
    unfold updateAttendance. cbn [attendanceRecords Attendance.id].
    rewrite (findIndex_last _ _ new);
      [| apply below_counter_not_counter; exact Hbelow | apply Z.eqb_refl].
    rewrite nth_error_app2, Nat.sub_diag by lia. cbn [nth_error].
    rewrite setAt_last. reflexivity.
  - unfold checkOut. rewrite CheckIn.today_records, Hday.
    cbn [attendanceRecords st2]. rewrite (Hmine _ done Hnone eq_refl eq_refl).
    reflexivity.
  - unfold checkIn. rewrite CheckIn.today_records, Hday.
    cbn [attendanceRecords st2]. rewrite (Hmine _ done Hnone eq_refl eq_refl).
    reflexivity.
Qed.

Lemma check_in_then_check_out_witness :
  Forall (fun a => Attendance.id a < currentAttendanceId CheckIn.checkedInStore)
         (attendanceRecords CheckIn.checkedInStore)
  /\ CheckIn.recordsOf 0 8 (civil (dayNumber 0 1000))
                       (attendanceRecords CheckIn.checkedInStore) = []
  /\ dayNumber 0 5000 = dayNumber 0 1000
  /\ checkOut 0 (snd (checkIn 0 CheckIn.checkedInStore (Some 8) 1000)) (Some 8) 5000
     = (mkResponse 200
          (Json (Some (merge (CheckIn.checkedIn CheckIn.checkedInStore 8 1000)
                             (checkOutPatch (ValidDate 5000))))),
        {| users := [];
           attendanceRecords :=
             attendanceRecords CheckIn.checkedInStore
             ++ [merge (CheckIn.checkedIn CheckIn.checkedInStore 8 1000)
                       (checkOutPatch (ValidDate 5000))];
           currentAttendanceId := 3 |}).
Proof.
  assert (H1 : Forall (fun a => Attendance.id a
                                < currentAttendanceId CheckIn.checkedInStore)
                      (attendanceRecords CheckIn.checkedInStore))
    by (repeat constructor).
  assert (H2 : CheckIn.recordsOf 0 8 (civil (dayNumber 0 1000))
                 (attendanceRecords CheckIn.checkedInStore) = []) by reflexivity.
  assert (H3 : dayNumber 0 5000 = dayNumber 0 1000) by reflexivity.
  split; [exact H1 |]. split; [exact H2 |]. split; [exact H3 |].
  pose proof (check_in_then_check_out 0 CheckIn.checkedInStore 8 1000 5000 H1 H2 H3)
    as H.
  cbv zeta in H.
  destruct (checkIn 0 CheckIn.checkedInStore (Some 8) 1000) as [reply1 st1].
  exact (proj1 (proj2 H)).
Defined.

Lemma setAt_ids (xs : list Attendance.t) i v x :
  nth_error xs i = Some x -> Attendance.id v = Attendance.id x ->
  map Attendance.id (setAt xs i v) = map Attendance.id xs.
Proof. apply setAt_map. Qed.

Lemma setAt_forall {A : Type} (P : A -> Prop) (xs : list A) : forall i v,
  Forall P xs -> P v -> Forall P (setAt xs i v).
Proof.
  induction xs as [| x rest IH]; intros [| i] v Hxs Hv; cbn [setAt];
    inversion Hxs; subst; constructor; auto.
Qed.

Lemma created_is_numbered (st : Storage) (ins : InsertAttendance) :
  wellNumbered st -> wellNumbered (snd (createAttendance st ins)).
Proof.
  intros [Hnd Hbelow]. unfold createAttendance, wellNumbered.
  cbn [snd attendanceRecords currentAttendanceId]. split.
  - rewrite map_app. cbn [map Attendance.id].
    apply NoDup_app; [exact Hnd | repeat constructor; intros [] |].
    intros j Hj [<- | []]. apply in_map_iff in Hj as [x [Hx Hin]].
    rewrite Forall_forall in Hbelow. specialize (Hbelow x Hin). lia.
  - apply Forall_app. split.
    + eapply Forall_impl; [| exact Hbelow]. cbn beta. intros x Hx. lia.
    + repeat constructor. cbn [Attendance.id]. lia.
Qed.

(** X3.  Attendance ids stay distinct and below the id counter: the
    invariant holds in the empty store and is kept by [createAttendance], by
    check-in and by check-out, whatever the request. *)
Theorem attendance_ids_stay_distinct (tz : Z) (st : Storage) :
  wellNumbered {| users := []; attendanceRecords := []; currentAttendanceId := 1 |}
  /\ (wellNumbered st ->
      (forall ins, wellNumbered (snd (createAttendance st ins)))
      /\ (forall session nowMs, wellNumbered (snd (checkIn tz st session nowMs)))
      /\ (forall session nowMs,
            wellNumbered (snd (checkOut tz st session nowMs)))).
Proof.
  split; [split; constructor |].
  intros Hwn. split; [| split].
  - intros ins. now apply created_is_numbered.
  - intros session nowMs. unfold checkIn.
    destruct session as [userId |]; [| exact Hwn]. cbv zeta.
    destruct (match find _ _ with Some _ => _ | None => _ end); [exact Hwn |].
    apply (created_is_numbered st
             {| insUserId := userId; insCheckInTime := Some (ValidDate nowMs);
                insCheckOutTime := None; insDate := Some (ValidDate nowMs);
                insStatus := Some "present"%string; insNotes := Some ""%string |}
             Hwn).
  - intros session nowMs. unfold checkOut.
    destruct session as [userId |]; [| exact Hwn].
    destruct (find _ _) as [r |]; [| exact Hwn].
    destruct (Attendance.checkOutTime r); [exact Hwn |].
    unfold updateAttendance.
    destruct (findIndex _ _) as [i |]; [| exact Hwn].
    destruct (nth_error (attendanceRecords st) i) as [x |] eqn:Hx; [| exact Hwn].
    destruct Hwn as [Hnd Hbelow]. unfold wellNumbered.
    cbn [snd attendanceRecords currentAttendanceId]. split.
    + now rewrite (setAt_ids _ i (merge x (checkOutPatch (ValidDate nowMs))) x
                     Hx eq_refl).
    + apply setAt_forall; [exact Hbelow |].
      rewrite Forall_forall in Hbelow. apply (Hbelow x).
      eapply nth_error_In. exact Hx.
Qed.

Definition numberedStore : Storage := CheckIn.checkedInStore.

Lemma attendance_ids_stay_distinct_witness :
  wellNumbered numberedStore
  /\ wellNumbered (snd (checkIn 0 numberedStore (Some 8) 1000))
  /\ wellNumbered (snd (checkOut 0 numberedStore (Some 7) 1000)).
Proof.
  assert (H : wellNumbered numberedStore).
  { split; repeat constructor. intros []. }
  pose proof (proj2 (attendance_ids_stay_distinct 0 numberedStore) H)
    as [_ [Hin Hout]].
  split; [exact H |]. split; [apply Hin | apply Hout].
Defined.

(** X4.  Creating an attendance record and looking it up: in a store whose
    ids are below the id counter, [getAttendance] finds the record
    [createAttendance] returned under its id, every other id is looked up as
    before, and the record takes the defaults of the insert (status
    "present" when none is given). *)
Theorem create_then_get (st : Storage) (ins : InsertAttendance) :
  Forall (fun a => Attendance.id a < currentAttendanceId st) (attendanceRecords st) ->
  let '(created, st') := createAttendance st ins in
  getAttendance st' (Attendance.id created) = Some created
  /\ (forall j, j <> Attendance.id created ->
                getAttendance st' j = getAttendance st j)
  /\ getAttendance st (Attendance.id created) = None
  /\ (insStatus ins = None -> Attendance.status created = "present"%string).
Proof.
  intros Hbelow. unfold createAttendance, getAttendance.
  cbn [attendanceRecords Attendance.id Attendance.status].
  assert (Hnone : forall x, In x (attendanceRecords st) ->
                            (Attendance.id x =? currentAttendanceId st) = false)
    by (now apply below_counter_not_counter).
  split; [| split; [| split]].
  - rewrite find_last by exact Hnone. cbn [find Attendance.id].
    now rewrite Z.eqb_refl.
  - intros j Hj. rewrite find_append.
    destruct (find _ (attendanceRecords st)); [reflexivity |].
    cbn [find Attendance.id].
    now rewrite (proj2 (Z.eqb_neq _ _) (fun H => Hj (eq_sym H))).
  - destruct (find _ _) as [x |] eqn:Hf; [| reflexivity].
    apply find_some in Hf as [Hin Hid]. now rewrite (Hnone x Hin) in Hid.
  - intros ->. reflexivity.
Qed.

Lemma create_then_get_witness :
  Forall (fun a => Attendance.id a < currentAttendanceId numberedStore)
         (attendanceRecords numberedStore)
  /\ getAttendance
       (snd (createAttendance numberedStore
               {| insUserId := 9; insCheckInTime := None; insCheckOutTime := None;
                  insDate := None; insStatus := None; insNotes := None |}))
       2
     = Some {| Attendance.id := 2; Attendance.userId := 9;
               Attendance.checkInTime := None; Attendance.checkOutTime := None;
               Attendance.date := None; Attendance.status := "present";
               Attendance.notes := None |}.
Proof.
  assert (H : Forall (fun a => Attendance.id a < currentAttendanceId numberedStore)
                     (attendanceRecords numberedStore)) by (repeat constructor).
  split; [exact H |].
  exact (proj1 (create_then_get numberedStore
                  {| insUserId := 9; insCheckInTime := None;
                     insCheckOutTime := None; insDate := None;
                     insStatus := None; insNotes := None |} H)).
Defined.

(** X5.  [updateAttendance] on an id that no record carries returns
    undefined and leaves the store as it is.  On an id that is stored, with
    a patch that carries no id, it returns the first record of that id
    merged with the patch; afterwards [getAttendance] finds the merged
    record under that id, finds what it found before under every other id,
    and the number of records is unchanged. *)
Theorem update_then_get (st : Storage) (id : Z) (patch : AttendancePatch) :
  (getAttendance st id = None -> updateAttendance st id patch = (None, st))
  /\ (forall record,
        getAttendance st id = Some record -> pId patch = None ->
        let '(updated, st') := updateAttendance st id patch in
        updated = Some (merge record patch)
        /\ getAttendance st' id = Some (merge record patch)
        /\ (forall j, j <> id -> getAttendance st' j = getAttendance st j)
        /\ List.length (attendanceRecords st') = List.length (attendanceRecords st)).
Proof.
  unfold getAttendance, updateAttendance.
  pose proof (findIndex_find (fun a => Attendance.id a =? id) (attendanceRecords st))
    as Hfi.
  split.
  - intros Hnone. destruct (findIndex _ _) as [i |]; [| reflexivity].
    destruct Hfi as [x [_ Hf]]. rewrite Hf in Hnone. discriminate Hnone.
  - intros record Hsome Hpid.
    destruct (findIndex _ _) as [i |] eqn:Hi;
      [| rewrite Hfi in Hsome; discriminate Hsome].
    destruct Hfi as [x [Hn Hf]]. rewrite Hf in Hsome. injection Hsome as ->.
    rewrite Hn. cbn [attendanceRecords].
    assert (Hid : Attendance.id (merge record patch) = Attendance.id record)
      by (unfold merge; cbn [Attendance.id]; now rewrite Hpid).
    assert (Hrec : (Attendance.id record =? id) = true)
      by (apply find_some in Hf; apply Hf).
    split; [reflexivity |]. split; [| split].
    + apply find_setAt; [exact Hi |]. now rewrite Hid.
    + intros j Hj. apply (find_setAt_other _ _ i _ record Hn).
      * apply Z.eqb_eq in Hrec. apply Z.eqb_neq. lia.
      * rewrite Hid. apply Z.eqb_eq in Hrec. apply Z.eqb_neq. lia.
    + apply setAt_length.
Qed.

Lemma update_then_get_witness :
  getAttendance numberedStore 1
  = Some {| Attendance.id := 1; Attendance.userId := 7;
            Attendance.checkInTime := Some (ValidDate 500);
            Attendance.checkOutTime := None;
            Attendance.date := Some (ValidDate 500);
            Attendance.status := "present";
            Attendance.notes := Some ""%string |}
  /\ pId (checkOutPatch (ValidDate 900)) = None
  /\ getAttendance (snd (updateAttendance numberedStore 1
                           (checkOutPatch (ValidDate 900)))) 1
     = Some {| Attendance.id := 1; Attendance.userId := 7;
               Attendance.checkInTime := Some (ValidDate 500);
               Attendance.checkOutTime := Some (ValidDate 900);
               Attendance.date := Some (ValidDate 500);
               Attendance.status := "present";
               Attendance.notes := Some ""%string |}
  /\ getAttendance numberedStore 5 = None
  /\ updateAttendance numberedStore 5 (checkOutPatch (ValidDate 900))
     = (None, numberedStore).
Proof.
  pose proof (update_then_get numberedStore 1 (checkOutPatch (ValidDate 900)))
    as [_ H1].
  pose proof (update_then_get numberedStore 5 (checkOutPatch (ValidDate 900)))
    as [H5 _].
  split; [reflexivity |]. split; [reflexivity |].
  split; [exact (proj1 (proj2 (H1 _ eq_refl eq_refl))) |].
  split; [reflexivity | exact (H5 eq_refl)].
Defined.

End AttendanceStore.

(** ** Leave requests on the server ([src/server/routes.ts]) *)

Module LeaveServer.
Import Js DateFns.
Open Scope Z_scope.

Inductive Role : Type :=
| admin | hr | manager | employee.

(** [req.user] of an authenticated request. *)
Record SessionUser : Type := mkSessionUser {
  suId : Z;
  suRole : Role
}.

Inductive NotificationType : Type :=
| login | logout | leave_request | leave_approved | leave_rejected.

Module Notification.
Record t : Type := mk {
  id : Z;
  userId : Z;
  type : NotificationType;
  title : string;
  message : string;
  isRead : bool;
  createdAt : Date;
  relatedUserId : option Z;
  relatedLeaveId : option Z
}.
End Notification.

Record InsertNotification : Type := mkInsertNotification {
  inUserId : Z;
  inType : NotificationType;
  inTitle : string;
  inMessage : string;
  inIsRead : option bool;
  inRelatedUserId : option Z;
  inRelatedLeaveId : option Z
}.

(** The part of [FileStorage]'s data the leave routes read and write. *)
Record Storage : Type := mkStorage {
  users : list User.t;
  leaveRequests : list LeaveRequest.t;
  notifications : list Notification.t;
  currentNotificationId : Z
}.

Inductive Body (A : Type) : Type :=
| Json (a : A)
| Message (m : string)
| Empty.
Arguments Json {A} a.
Arguments Message {A} m.
Arguments Empty {A}.

Record Response (A : Type) : Type := mkResponse {
  statusCode : Z;
  body : Body A
}.
Arguments mkResponse {A} statusCode body.
Arguments statusCode {A} r.
Arguments body {A} r.

(** [xs.splice(index, 1)]. *)
Fixpoint removeAt {A : Type} (xs : list A) (index : nat) : list A :=
  match xs, index with
  | [], _ => []
  | _ :: rest, O => rest
  | x :: rest, S i => x :: removeAt rest i
  end.

(** [l.id === id] for an id read by [parseInt]; nothing equals [NaN]. *)
Definition hasId (id : num) (l : LeaveRequest.t) : bool :=
  match id with
  | Fin n => LeaveRequest.id l =? n
  | NaN => false
  end.

Definition getLeaveRequest (st : Storage) (id : num) : option LeaveRequest.t :=
  find (hasId id) (leaveRequests st).

Definition getLeaveRequestsByUser (st : Storage) (userId : num)
  : list LeaveRequest.t :=
  filter (fun l => match userId with
                   | Fin u => LeaveRequest.userId l =? u
                   | NaN => false
                   end) (leaveRequests st).

Definition isPending (s : option LeaveStatus) : bool :=
  match s with
  | Some pending => true
  | _ => false
  end.

Definition getPendingLeaveRequests (st : Storage) : list LeaveRequest.t :=
  filter (fun l => isPending (LeaveRequest.status l)) (leaveRequests st).

Definition deleteLeaveRequest (st : Storage) (id : num) : bool * Storage :=
  match AttendanceStore.findIndex (hasId id) (leaveRequests st) with
  | None => (false, st)
  | Some index =>
      (true,
       {| users := users st;
          leaveRequests := removeAt (leaveRequests st) index;
          notifications := notifications st;
          currentNotificationId := currentNotificationId st |})
  end.

(** [createNotification], with [nowMs] the time value of [new Date()]. *)
Definition createNotification (st : Storage) (n : InsertNotification) (nowMs : Z)
  : Notification.t * Storage :=
  let id := currentNotificationId st in
  let notification :=
    {| Notification.id := id;
       Notification.userId := inUserId n;
       Notification.type := inType n;
       Notification.title := inTitle n;
       Notification.message := inMessage n;
       Notification.isRead := match inIsRead n with Some b => b | None => false end;
       Notification.createdAt := ValidDate nowMs;
       Notification.relatedUserId := inRelatedUserId n;
       Notification.relatedLeaveId := inRelatedLeaveId n |} in
  (notification,
   {| users := users st;
      leaveRequests := leaveRequests st;
      notifications := notifications st ++ [notification];
      currentNotificationId := id + 1 |}).

(** [GET /api/leave-requests].  [userId] is what [parseInt] reads from the
    parameter ([None] when absent or empty), [status] the text of the
    parameter, [user] is [req.user]. *)
Definition listLeaveRequests (st : Storage) (user : option SessionUser)
    (userId : option num) (status : option string)
  : Response (list LeaveRequest.t) :=
  match userId with
  | Some u => mkResponse 200 (Json (getLeaveRequestsByUser st u))
  | None =>
      if match status with
         | Some s => (s =? "pending")%string
         | None => false
         end
      then mkResponse 200 (Json (getPendingLeaveRequests st))
      else
        if match user with
           | Some u => match suRole u with
                       | admin | hr => true
                       | _ => false
                       end
           | None => false
           end
        then mkResponse 200 (Json (getPendingLeaveRequests st))
        else mkResponse 400
               (Message "Missing query parameters or insufficient permissions")
  end.

Section Locale.
(** [d.toLocaleDateString()] depends on the locale of the server. *)
Variable toLocaleDateString : Date -> string.

Definition canceledNotification (leaveRequest : LeaveRequest.t) : InsertNotification :=
  {| inUserId := LeaveRequest.userId leaveRequest;
     inType := leave_request;
     inTitle := "Leave Request Canceled";
     inMessage :=
       ("Your leave request from "
        ++ toLocaleDateString (LeaveRequest.startDate leaveRequest)
        ++ " to " ++ toLocaleDateString (LeaveRequest.endDate leaveRequest)
        ++ " has been canceled.")%string;
     inIsRead := Some false;
     inRelatedUserId := None;
     inRelatedLeaveId := Some (LeaveRequest.id leaveRequest) |}.

(** [DELETE /api/leave-requests/:id].  [id] is what [parseInt] reads from
    the path, [session] is [req.user] of an authenticated request. *)
Definition cancelLeaveRequest (st : Storage) (session : option SessionUser)
    (id : num) (nowMs : Z) : Response unit * Storage :=
  match session with
  | None => (mkResponse 401 (Message "Unauthorized"), st)
  | Some user =>
      match getLeaveRequest st id with
      | None => (mkResponse 404 (Message "Leave request not found"), st)
      | Some leaveRequest =>
          if negb (LeaveRequest.userId leaveRequest =? suId user)
             && match suRole user with
                | admin | hr => false
                | _ => true
                end
          then (mkResponse 403
                  (Message "You can only cancel your own leave requests"), st)
          else if negb (isPending (LeaveRequest.status leaveRequest))
          then (mkResponse 400
                  (Message "Only pending leave requests can be canceled"), st)
          else
            let '(deleted, st1) := deleteLeaveRequest st id in
            if negb deleted
            then (mkResponse 404 (Message "Leave request not found"), st1)
            else
              let '(_, st2) :=
                createNotification st1 (canceledNotification leaveRequest) nowMs in
              (mkResponse 204 Empty, st2)
      end
  end.

End Locale.

(** The query of [GET /api/reports/leave]. *)
Record LeaveReportQuery : Type := mkLeaveQuery {
  startDate : option Date;
  endDate : option Date;
  departmentId : option num;
  status : option string
}.

Definition statusName (s : LeaveStatus) : string :=
  match s with
  | pending => "pending"
  | approved => "approved"
  | rejected => "rejected"
  end.

(** [request.status === status]. *)
Definition hasStatus (status : string) (request : LeaveRequest.t) : bool :=
  match LeaveRequest.status request with
  | Some s => (statusName s =? status)%string
  | None => false
  end.

(** The date test of the leave report: the start or the end of the request
    lies within the queried range. *)
Definition startsOrEndsWithin (start end_ : Date) (request : LeaveRequest.t) : bool :=
  let requestStart := LeaveRequest.startDate request in
  let requestEnd := LeaveRequest.endDate request in
  (geb (getTime requestStart) (getTime start)
   && geb (getTime end_) (getTime requestStart))
  || (geb (getTime requestEnd) (getTime start)
      && geb (getTime end_) (getTime requestEnd)).

(** The requests of [user] the report keeps. *)
Definition reportedRequests (st : Storage) (q : LeaveReportQuery)
    (start end_ : Date) (user : User.t) : list LeaveRequest.t :=
  let userLeaveRequests := getLeaveRequestsByUser st (Fin (User.id user)) in
  let filteredRequests := filter (startsOrEndsWithin start end_) userLeaveRequests in
  match status q with
  | Some s => filter (hasStatus s) filteredRequests
  | None => filteredRequests
  end.

Definition leaveReport (st : Storage) (q : LeaveReportQuery)
  : Response (list ReportsPage.ViewRecord) :=
  match startDate q, endDate q with
  | Some start, Some end_ =>
      let allUsers := users st in
      let users :=
        match departmentId q with
        | Some d => filter (Server.inDepartment d) allUsers
        | None => allUsers
        end in
      let leaveReport :=
        fold_left
          (fun leaveReport user =>
             let filteredRequests := reportedRequests st q start end_ user in
             match filteredRequests with
             | _ :: _ =>
                 leaveReport ++
                 [{| ReportsPage.user := Some (Server.reportUser user);
                     ReportsPage.records := None;
                     ReportsPage.leaveRequests := Some filteredRequests |}]
             | [] => leaveReport
             end)
          users [] in
      mkResponse 200 (Json leaveReport)
  | _, _ => mkResponse 400 (Message "startDate and endDate are required")
  end.

(** *** Lists *)

Lemma removeAt_found {A : Type} (p : A -> bool) (xs : list A) : forall i r,
  AttendanceStore.findIndex p xs = Some i -> find p xs = Some r ->
  (List.length (removeAt xs i) + 1 = List.length xs)%nat
  /\ (forall x, In x xs -> x = r \/ In x (removeAt xs i))
  /\ (forall x, In x (removeAt xs i) -> In x xs).
Proof.
  induction xs as [| y rest IH]; intros i r Hi Hf;
    cbn [AttendanceStore.findIndex find] in Hi, Hf; [discriminate Hi |].
  destruct (p y).
  - injection Hi as <-. injection Hf as <-. cbn [removeAt List.length].
    split; [lia |]. split.
    + intros x [-> | Hx]; [now left | now right].
    + intros x Hx. now right.
  - destruct (AttendanceStore.findIndex p rest) as [j |]; [| discriminate Hi].
    injection Hi as <-. destruct (IH j r eq_refl Hf) as [Hlen [Hin Hback]].
    cbn [removeAt List.length]. split; [lia |]. split.
    + intros x [-> | Hx]; [right; now left |].
      destruct (Hin x Hx) as [-> | H]; [now left | right; now right].
    + intros x [-> | Hx]; [now left | right; now apply Hback].
Qed.

Lemma pushes_are_filter_map {A B : Type} (keep : A -> bool) (f : A -> B)
    (xs : list A) : forall acc,
  fold_left (fun acc x => if keep x then acc ++ [f x] else acc) xs acc
  = acc ++ map f (filter keep xs).
Proof.
  induction xs as [| x rest IH]; intros acc; cbn [fold_left filter].
  - now rewrite app_nil_r.
  - rewrite IH. destruct (keep x); [| reflexivity].
    cbn [map]. now rewrite <- app_assoc.
Qed.

Lemma fold_left_same {A B : Type} (f g : A -> B -> A) (xs : list B) :
  (forall acc x, f acc x = g acc x) ->
  forall acc, fold_left f xs acc = fold_left g xs acc.
Proof.
  intros H. induction xs as [| x rest IH]; intros acc; cbn [fold_left];
    [reflexivity |]. now rewrite H, IH.
Qed.

(** *** Properties *)

(** An approved request of user 4 and a pending request of user 5. *)
Definition oneApproved : Storage :=
  {| users := [];
     leaveRequests :=
       [ {| LeaveRequest.id := 1; LeaveRequest.userId := 4;
            LeaveRequest.type := LeaveType.annual;
            LeaveRequest.startDate := ValidDate 0;
            LeaveRequest.endDate := ValidDate msPerDay;
            LeaveRequest.status := Some approved |};
         {| LeaveRequest.id := 2; LeaveRequest.userId := 5;
            LeaveRequest.type := LeaveType.sick;
            LeaveRequest.startDate := ValidDate 0;
            LeaveRequest.endDate := ValidDate 0;
            LeaveRequest.status := Some pending |} ];
     notifications := [];
     currentNotificationId := 1 |}.

Section Cancel.
Variable toLocaleDateString : Date -> string.

(** X6.  Cancelling a leave request changes the store only when the reply
    is 204.  Then the caller is authenticated, the request found under the
    id was pending and is the caller's own or the caller is admin or HR,
    exactly one request is gone, and one notification for the owner of the
    request is appended.  A request that is not pending (approved,
    rejected or without status) is never removed. *)
Theorem cancel_removes_only_pending (st : Storage) (session : option SessionUser)
    (id : num) (nowMs : Z) :
  let '(reply, st') := cancelLeaveRequest toLocaleDateString st session id nowMs in
  (statusCode reply <> 204 -> st' = st)
  /\ (statusCode reply = 204 ->
      exists user r,
        session = Some user
        /\ getLeaveRequest st id = Some r
        /\ LeaveRequest.status r = Some pending
        /\ (LeaveRequest.userId r = suId user
            \/ suRole user = admin \/ suRole user = hr)
        /\ (List.length (leaveRequests st') + 1
            = List.length (leaveRequests st))%nat
        /\ notifications st'
           = notifications st
             ++ [fst (createNotification st
                        (canceledNotification toLocaleDateString r) nowMs)])
  /\ (forall x, In x (leaveRequests st) ->
                LeaveRequest.status x <> Some pending ->
                In x (leaveRequests st'))
  /\ (forall x, In x (leaveRequests st') -> In x (leaveRequests st)).
Proof.
  unfold cancelLeaveRequest.
  destruct session as [user |];
    [| cbn; repeat split; auto; intros H; discriminate H].
  destruct (getLeaveRequest st id) as [r |] eqn:Hget;
    [| cbn; repeat split; auto; intros H; discriminate H].
  destruct (negb (LeaveRequest.userId r =? suId user) && _) eqn:Hown;
    [cbn; repeat split; auto; intros H; discriminate H |].
  destruct (isPending (LeaveRequest.status r)) eqn:Hpending; cbn [negb];
    [| cbn; repeat split; auto; intros H; discriminate H].
  unfold deleteLeaveRequest.
  pose proof (AttendanceStore.findIndex_find (hasId id) (leaveRequests st)) as Hfi.
  unfold getLeaveRequest in Hget.
  destruct (AttendanceStore.findIndex (hasId id) (leaveRequests st)) as [i |] eqn:Hi;
    [| rewrite Hfi in Hget; discriminate Hget].
  cbn [negb createNotification leaveRequests notifications statusCode fst
       currentNotificationId users].
  destruct (removeAt_found (hasId id) (leaveRequests st) i r Hi Hget)
    as [Hlen [Hin Hback]].
  assert (Hstatus : LeaveRequest.status r = Some pending).
  { unfold isPending in Hpending.
    destruct (LeaveRequest.status r) as [[| |] |]; try discriminate Hpending.
    reflexivity. }
  split; [intros H; now elim H |]. split; [| split].
  - intros _. exists user, r. repeat split; auto.
    apply andb_false_iff in Hown as [Hown | Hrole].
    + left. apply negb_false_iff, Z.eqb_eq in Hown. exact Hown.
    + right. destruct (suRole user); try discriminate Hrole; auto.
  - intros x Hx Hnot. destruct (Hin x Hx) as [-> | H]; [| exact H].
    now elim Hnot.
  - exact Hback.
Qed.

End Cancel.

Lemma cancel_removes_only_pending_witness :
  statusCode (fst (cancelLeaveRequest (fun _ => "1/1/1970"%string) oneApproved
                     (Some {| suId := 5; suRole := employee |}) (Fin 2) 1000)) = 204
  /\ List.length (leaveRequests
                    (snd (cancelLeaveRequest (fun _ => "1/1/1970"%string) oneApproved
                            (Some {| suId := 5; suRole := employee |}) (Fin 2) 1000)))
     = 1%nat
  /\ cancelLeaveRequest (fun _ => "1/1/1970"%string) oneApproved
       (Some {| suId := 1; suRole := admin |}) (Fin 1) 1000
     = (mkResponse 400 (Message "Only pending leave requests can be canceled"),
        oneApproved).
Proof.
  pose proof (cancel_removes_only_pending (fun _ => "1/1/1970"%string) oneApproved
                (Some {| suId := 5; suRole := employee |}) (Fin 2) 1000) as H.
  pose proof (cancel_removes_only_pending (fun _ => "1/1/1970"%string) oneApproved
                (Some {| suId := 1; suRole := admin |}) (Fin 1) 1000) as H'.
  destruct (cancelLeaveRequest _ oneApproved (Some {| suId := 5 |}) _ _)
    as [reply st'] eqn:E.
  destruct (cancelLeaveRequest _ oneApproved (Some {| suId := 1 |}) _ _)
    as [reply' st''] eqn:E'.
  assert (Hcode : statusCode reply = 204)
    by (apply (f_equal fst) in E; cbn in E; now subst reply).
  assert (Hcode' : statusCode reply' = 400)
    by (apply (f_equal fst) in E'; cbn in E'; now subst reply').
  destruct H as [_ [H _]]. destruct (H Hcode) as [u [r [_ [_ [_ [_ [Hlen _]]]]]]].
  destruct H' as [H' _].
  split; [exact Hcode |]. split; [cbn in Hlen |- *; lia |].
  rewrite (H' ltac:(rewrite Hcode'; discriminate)).
  apply (f_equal fst) in E'. cbn in E'. now subst reply'.
Defined.

(** X7.  Without a [userId] parameter the list of leave requests never
    holds a request that is not pending: the reply is either 400 or 200
    with exactly the pending requests, in stored order.  Admin and HR
    always get the 200 reply; another user without [status=pending] gets
    400. *)
Theorem list_without_user_is_pending_only (st : Storage)
    (user : option SessionUser) (status : option string) :
  let reply := listLeaveRequests st user None status in
  (forall l, body reply = Json l ->
             statusCode reply = 200
             /\ l = getPendingLeaveRequests st
             /\ Forall (fun r => LeaveRequest.status r = Some pending) l)
  /\ (forall u, user = Some u -> suRole u = admin \/ suRole u = hr ->
                statusCode reply = 200)
  /\ (status <> Some "pending"%string ->
      (forall u, user = Some u -> suRole u <> admin /\ suRole u <> hr) ->
      statusCode reply = 400).
Proof.
  assert (Hpend : Forall (fun r => LeaveRequest.status r = Some pending)
                         (getPendingLeaveRequests st)).
  { apply Forall_forall. intros r Hr. apply filter_In in Hr as [_ Hr].
    unfold isPending in Hr.
    destruct (LeaveRequest.status r) as [[| |] |]; try discriminate Hr.
    reflexivity. }
  unfold listLeaveRequests. cbv zeta. split; [| split].
  - intros l Hl.
    destruct (match status with Some s => _ | None => false end);
      [cbn in Hl; injection Hl as <-; auto |].
    destruct (match user with Some u => _ | None => false end);
      [cbn in Hl; injection Hl as <-; auto | discriminate Hl].
  - intros u -> Hrole.
    destruct (match status with Some s => _ | None => false end);
      [reflexivity |].
    destruct Hrole as [-> | ->]; reflexivity.
  - intros Hstatus Hrole.
    destruct status as [s |].
    + destruct (s =? "pending")%string eqn:Hs.
      * apply String.eqb_eq in Hs. subst s. now elim Hstatus.
      * destruct user as [u |]; [| reflexivity].
        destruct (Hrole u eq_refl) as [Ha Hh].
        destruct (suRole u); try reflexivity; [now elim Ha | now elim Hh].
    + destruct user as [u |]; [| reflexivity].
      destruct (Hrole u eq_refl) as [Ha Hh].
      destruct (suRole u); try reflexivity; [now elim Ha | now elim Hh].
Qed.

Lemma list_without_user_is_pending_only_witness :
  body (listLeaveRequests oneApproved (Some {| suId := 1; suRole := hr |}) None None)
  = Json (getPendingLeaveRequests oneApproved)
  /\ statusCode (listLeaveRequests oneApproved
                   (Some {| suId := 1; suRole := hr |}) None None) = 200
  /\ statusCode (listLeaveRequests oneApproved
                   (Some {| suId := 5; suRole := employee |}) None None) = 400.
Proof.
  pose proof (list_without_user_is_pending_only oneApproved
                (Some {| suId := 1; suRole := hr |}) None) as [_ [H200 _]].
  pose proof (list_without_user_is_pending_only oneApproved
                (Some {| suId := 5; suRole := employee |}) None) as [_ [_ H400]].
  split; [reflexivity |].
  split; [apply (H200 _ eq_refl); now right |].
  apply H400; [discriminate |].
  intros u Hu. injection Hu as <-. split; discriminate.
Defined.

(** X8.  The leave report holds one entry for every user (of the queried
    department, if any) who has at least one request that starts or ends
    within the range and has the queried status, in the order of the users,
    and no entry for any other user; the entry holds the user's copied
    fields and exactly those requests, in stored order, so none of its lists
    is empty and every request in it belongs to its user. *)
Theorem leave_report_entries (st : Storage) (start end_ : Date)
    (dept : option num) (status : option string) :
  let q := {| startDate := Some start; endDate := Some end_;
              departmentId := dept; status := status |} in
  let inScope := match dept with
                 | Some d => filter (Server.inDepartment d) (users st)
                 | None => users st
                 end in
  leaveReport st q
  = mkResponse 200
      (Json (map (fun user =>
                    {| ReportsPage.user := Some (Server.reportUser user);
                       ReportsPage.records := None;
                       ReportsPage.leaveRequests :=
                         Some (reportedRequests st q start end_ user) |})
                 (filter (fun user =>
                            match reportedRequests st q start end_ user with
                            | [] => false
                            | _ :: _ => true
                            end) inScope)))
  /\ (forall user r,
        In r (reportedRequests st q start end_ user) ->
        In r (leaveRequests st)
        /\ LeaveRequest.userId r = User.id user
        /\ startsOrEndsWithin start end_ r = true
        /\ (forall s, status = Some s -> hasStatus s r = true)).
Proof.
  intros q inScope. split.
  - unfold leaveReport. cbn [startDate endDate departmentId q]. fold q. fold inScope.
    f_equal. f_equal.
    etransitivity;
      [| exact (pushes_are_filter_map
                  (fun user => match reportedRequests st q start end_ user with
                               | [] => false
                               | _ :: _ => true
                               end)
                  (fun user =>
                     {| ReportsPage.user := Some (Server.reportUser user);
                        ReportsPage.records := None;
                        ReportsPage.leaveRequests :=
                          Some (reportedRequests st q start end_ user) |})
                  inScope [])].
    apply fold_left_same. intros acc user.
    now destruct (reportedRequests st q start end_ user).
  - intros user r Hr. unfold reportedRequests in Hr. cbn [LeaveServer.status q] in Hr.
    assert (Hbase : In r (filter (startsOrEndsWithin start end_)
                                 (getLeaveRequestsByUser st (Fin (User.id user)))) ->
                    In r (leaveRequests st)
                    /\ LeaveRequest.userId r = User.id user
                    /\ startsOrEndsWithin start end_ r = true).
    { intros H. apply filter_In in H as [H Hrange].
      unfold getLeaveRequestsByUser in H. apply filter_In in H as [H Hu].
      apply Z.eqb_eq in Hu. auto. }
    destruct status as [s |].
    + apply filter_In in Hr as [Hr Hs]. destruct (Hbase Hr) as [H1 [H2 H3]].
      repeat split; auto. intros s' Hs'. injection Hs' as <-. exact Hs.
    + destruct (Hbase Hr) as [H1 [H2 H3]]. repeat split; auto.
      intros s Hs. discriminate Hs.
Qed.

End LeaveServer.

(** ** More of the reports page ([src/unnamed/part_000]) *)

Module ReportsMore.
Import Js DateFns ReportsPage.
Open Scope Z_scope.

(** [isEmployeeOnLeaveInPeriod], with [from] and [to] the selected date
    range. *)
Definition isEmployeeOnLeaveInPeriod (reportType : ReportType)
    (allLeaveRequests : list LeaveRequest.t) (from to : Date) (employeeId : Z)
  : bool :=
  match reportType with
  | AttendanceReport =>
      existsb
        (fun request =>
           if negb (LeaveRequest.userId request =? employeeId)
              || negb (isApproved (LeaveRequest.status request))
           then false
           else
             let requestStartDate := LeaveRequest.startDate request in
             let requestEndDate := LeaveRequest.endDate request in
             let periodStart := from in
             let periodEnd := to in
             geb (getTime periodEnd) (getTime requestStartDate)
             && geb (getTime requestEndDate) (getTime periodStart))
        allLeaveRequests
  | _ => false
  end.

(** The instant [x] lies within the request. *)
Definition covers (r : LeaveRequest.t) (x : Z) : Prop :=
  exists s e, LeaveRequest.startDate r = ValidDate s
              /\ LeaveRequest.endDate r = ValidDate e
              /\ s <= x <= e.

(** The days of a leave counted from start to end, both included. *)
Definition inclusiveDays (r : LeaveRequest.t) : Z :=
  match LeaveRequest.startDate r, LeaveRequest.endDate r with
  | ValidDate s, ValidDate e => (e - s) / msPerDay + 1
  | _, _ => 0
  end.

(** The leave spans a whole number of days. *)
Definition wholeDays (r : LeaveRequest.t) : Prop :=
  exists s k, LeaveRequest.startDate r = ValidDate s
              /\ LeaveRequest.endDate r = ValidDate (s + k * msPerDay)
              /\ 0 <= k.

(** *** Lists *)

Lemma count_le {A : Type} (p q : A -> bool) (xs : list A) :
  (forall x, p x = true -> q x = true) -> count p xs <= count q xs.
Proof.
  intros H. unfold count. apply inj_le.
  induction xs as [| x rest IH]; cbn [filter]; [lia |].
  destruct (p x) eqn:Hp.
  - rewrite (H x Hp). cbn [List.length]. lia.
  - destruct (q x); cbn [List.length]; lia.
Qed.

Lemma count_disjoint {A : Type} (p q : A -> bool) (xs : list A) :
  (forall x, p x = true -> q x = false) ->
  count p xs + count q xs <= Z.of_nat (List.length xs).
Proof.
  intros H. unfold count.
  induction xs as [| x rest IH]; cbn [filter List.length]; [lia |].
  destruct (p x) eqn:Hp.
  - rewrite (H x Hp). cbn [List.length]. lia.
  - destruct (q x); cbn [List.length]; lia.
Qed.

Lemma mapM_inv {A B : Type} (f : A -> outcome B) (xs : list A) : forall ys,
  mapM f xs = Ok ys ->
  forall y, In y ys -> exists x, In x xs /\ f x = Ok y.
Proof.
  induction xs as [| x rest IH]; intros ys H y Hy; cbn [mapM] in H.
  - injection H as <-. destruct Hy.
  - destruct (f x) as [b |] eqn:Hfx; cbn [bind] in H; [| discriminate H].
    destruct (mapM f rest) as [bs |]; cbn [bind] in H; [| discriminate H].
    injection H as <-. destruct Hy as [<- | Hy].
    + exists x. split; [now left | exact Hfx].
    + destruct (IH bs eq_refl y Hy) as [x' [Hin Hf]].
      exists x'. split; [now right | exact Hf].
Qed.

Lemma chartLate_present tz r :
  chartLate tz r = true -> (Attendance.status r =? "present")%string = true.
Proof.
  unfold chartLate. destruct (Attendance.checkInTime r); [| discriminate].
  destruct (Attendance.status r =? "present")%string; [reflexivity | discriminate].
Qed.

Lemma columnLate_present tz r :
  columnLate tz r = true -> (Attendance.status r =? "present")%string = true.
Proof. unfold columnLate. intros H. now apply andb_true_iff in H. Qed.

Lemma present_not_absent (s : string) :
  (s =? "present")%string = true -> (s =? "absent")%string = false.
Proof. intros H. apply String.eqb_eq in H. now subst s. Qed.

(** *** Properties *)

(** X9.  With the selected period not reversed and the approved requests of
    the employee well formed (dates that parse, end not before start),
    [isEmployeeOnLeaveInPeriod] is true exactly when some approved request
    of the employee shares an instant with the period.  For another report
    type than attendance it is false. *)
Theorem on_leave_iff_overlap (allLeaveRequests : list LeaveRequest.t)
    (from to employeeId : Z) :
  from <= to ->
  Forall (fun r => LeaveRequest.userId r = employeeId ->
                   isApproved (LeaveRequest.status r) = true ->
                   LeaveBalance.wellFormed r) allLeaveRequests ->
  (isEmployeeOnLeaveInPeriod AttendanceReport allLeaveRequests
     (ValidDate from) (ValidDate to) employeeId = true
   <-> exists r x, In r allLeaveRequests
                   /\ LeaveRequest.userId r = employeeId
                   /\ isApproved (LeaveRequest.status r) = true
                   /\ covers r x /\ from <= x <= to)
  /\ isEmployeeOnLeaveInPeriod LeaveReport allLeaveRequests
       (ValidDate from) (ValidDate to) employeeId = false
  /\ isEmployeeOnLeaveInPeriod PayrollReport allLeaveRequests
       (ValidDate from) (ValidDate to) employeeId = false.
Proof.
  intros Hperiod Hwf. split; [| split; reflexivity].
  unfold isEmployeeOnLeaveInPeriod. rewrite existsb_exists. split.
  - intros [r [Hin Hr]].
    destruct (LeaveRequest.userId r =? employeeId) eqn:Hu; [| discriminate Hr].
    destruct (isApproved (LeaveRequest.status r)) eqn:Ha; [| discriminate Hr].
    cbn [negb orb] in Hr. apply Z.eqb_eq in Hu.
    rewrite Forall_forall in Hwf.
    destruct (Hwf r Hin Hu Ha) as [s [e [Hs [He Hse]]]].
    rewrite Hs, He in Hr. cbn [getTime geb] in Hr.
    apply andb_true_iff in Hr as [H1 H2].
    apply Z.leb_le in H1, H2.
    exists r, (Z.max s from). repeat split; auto; try lia.
    exists s, e. repeat split; auto; lia.
  - intros [r [x [Hin [Hu [Ha [[s [e [Hs [He Hx]]]] Hfx]]]]]].
    exists r. split; [exact Hin |].
    rewrite (proj2 (Z.eqb_eq _ _) Hu), Ha, Hs, He. cbn [negb orb getTime geb].
    apply andb_true_iff. split; apply Z.leb_le; lia.
Qed.

Lemma on_leave_iff_overlap_witness :
  0 <= 10 * msPerDay
  /\ isEmployeeOnLeaveInPeriod AttendanceReport
       [LeaveBalance.annualLeave 1 8 11] (ValidDate 0) (ValidDate (10 * msPerDay)) 1
     = true.
Proof.
  assert (H : 0 <= 10 * msPerDay) by (vm_compute; discriminate).
  split; [exact H |].
  apply (proj1 (on_leave_iff_overlap [LeaveBalance.annualLeave 1 8 11]
                  0 (10 * msPerDay) 1 H
                  ltac:(repeat constructor; intros _ _;
                        exists (8 * msPerDay), (11 * msPerDay);
                        repeat split; vm_compute; discriminate))).
  exists (LeaveBalance.annualLeave 1 8 11), (9 * msPerDay).
  split; [now left |]. split; [reflexivity |]. split; [reflexivity |].
  split; [| split; vm_compute; discriminate].
  exists (8 * msPerDay), (11 * msPerDay).
  repeat split; vm_compute; discriminate.
Defined.

(** X10.  In every row of the attendance table the late days are at most
    the present days, and present and absent days together are at most the
    number of records of the row; and in every row the attendance chart
    returns, the late count is at most the present count. *)
Theorem late_is_part_of_present (tz : Z) :
  (forall row,
     0 <= lateDays tz row <= presentDays row
     /\ presentDays row + absentDays row
        <= match records row with
           | Some rs => Z.of_nat (List.length rs)
           | None => 0
           end)
  /\ (forall reportType reportData today rows,
        prepareAttendanceChartData tz reportType reportData today = Ok rows ->
        Forall (fun r => 0 <= late r <= present r /\ 0 <= absent r) rows).
Proof.
  split.
  - intros row. unfold lateDays, presentDays, absentDays.
    destruct (records row) as [rs |]; [| lia]. split; [split |].
    + unfold count. lia.
    + apply count_le. apply columnLate_present.
    + apply count_disjoint. intros x. apply present_not_absent.
  - intros reportType reportData today rows H. apply Forall_forall. intros r Hr.
    unfold prepareAttendanceChartData in H.
    assert (Hrow : exists day, chartRow tz reportData day = Ok r).
    { destruct reportType, reportData as [| entry rest];
        try (injection H as <-; destruct Hr).
      destruct (mapM_inv _ _ _ H r Hr) as [day [_ Hday]]. now exists day. }
    destruct Hrow as [day Hday]. unfold chartRow in Hday.
    destruct (format_yyyyMMdd tz day) as [dateStr |]; cbn [bind] in Hday;
      [| discriminate Hday].
    destruct (format_MMdd tz day) as [label |]; cbn [bind] in Hday;
      [| discriminate Hday].
    injection Hday as <-. cbn [late present absent].
    split; [split |]; try (unfold count; lia).
    apply count_le. apply chartLate_present.
Qed.

Lemma late_is_part_of_present_witness :
  prepareAttendanceChartData 0 AttendanceReport AttendanceChart.oneRecord
    (ValidDate msPerDay)
  = Ok (map (fun i => AttendanceChart.rowOfDay 0 AttendanceChart.oneRecord
                        (dayNumber 0 msPerDay - (6 - Z.of_nat i))) (seq 0 7))
  /\ Forall (fun r => 0 <= late r <= present r /\ 0 <= absent r)
            (map (fun i => AttendanceChart.rowOfDay 0 AttendanceChart.oneRecord
                             (dayNumber 0 msPerDay - (6 - Z.of_nat i))) (seq 0 7)).
Proof.
  assert (H : prepareAttendanceChartData 0 AttendanceReport AttendanceChart.oneRecord
                (ValidDate msPerDay)
              = Ok (map (fun i => AttendanceChart.rowOfDay 0 AttendanceChart.oneRecord
                                    (dayNumber 0 msPerDay - (6 - Z.of_nat i)))
                        (seq 0 7))) by reflexivity.
  split; [exact H |].
  exact (proj2 (late_is_part_of_present 0) _ _ _ _ H).
Defined.

Lemma totalDays_sum (rs : list LeaveRequest.t) :
  Forall (fun r => isApproved (LeaveRequest.status r) = true -> wholeDays r) rs ->
  forall acc,
    fold_left
      (fun sum leave =>
         add sum (add (ceilDiv (sub (getTime (LeaveRequest.endDate leave))
                                    (getTime (LeaveRequest.startDate leave)))
                               (1000 * 60 * 60 * 24)) (Fin 1)))
      (filter (fun r => isApproved (LeaveRequest.status r)) rs) (Fin acc)
    = Fin (acc + fold_right Z.add 0
                   (map inclusiveDays
                        (filter (fun r => isApproved (LeaveRequest.status r)) rs))).
Proof.
  induction 1 as [| r rest Hr _ IH]; intros acc; cbn [filter fold_left map fold_right].
  - f_equal. lia.
  - destruct (isApproved (LeaveRequest.status r)) eqn:Ha; [| apply IH].
    destruct (Hr eq_refl) as [s [k [Hs [He Hk]]]].
    cbn [fold_left map fold_right]. unfold inclusiveDays at 1.
    rewrite Hs, He. cbn [getTime sub ceilDiv add]. rewrite IH. f_equal.
    replace (s + k * msPerDay - s) with (k * msPerDay) by ring.
    replace (- (k * msPerDay)) with ((- k) * msPerDay) by ring.
    change (1000 * 60 * 60 * 24) with msPerDay.
    rewrite !Z.div_mul by (unfold msPerDay; lia). lia.
Qed.

(** X11.  When every approved leave of a row spans a whole number of days,
    the "Total Days" cell is the sum, over the approved leaves, of the days
    from start to end with both ends included (weekends are counted); it is
    at least the number of approved leaves.  Without leave requests, or with
    none approved, the cell is 0. *)
Theorem total_days_counts_inclusive_days (row : ViewRecord) :
  let approvedLeaves :=
    match leaveRequests row with
    | Some rs => filter (fun r => isApproved (LeaveRequest.status r)) rs
    | None => []
    end in
  Forall wholeDays approvedLeaves ->
  totalDays row = Fin (fold_right Z.add 0 (map inclusiveDays approvedLeaves))
  /\ Z.of_nat (List.length approvedLeaves)
     <= fold_right Z.add 0 (map inclusiveDays approvedLeaves)
  /\ (approvedLeaves = [] -> totalDays row = Fin 0).
Proof.
  intros approvedLeaves Hwhole. unfold totalDays. fold approvedLeaves.
  assert (Hsum : totalDays row
                 = Fin (fold_right Z.add 0 (map inclusiveDays approvedLeaves))).
  { unfold totalDays. subst approvedLeaves.
    destruct (leaveRequests row) as [rs |]; [| reflexivity].
    rewrite (totalDays_sum rs); [f_equal |].
    apply Forall_forall. intros r Hr Ha. rewrite Forall_forall in Hwhole.
    apply Hwhole. apply filter_In. now split. }
  unfold totalDays in Hsum. fold approvedLeaves in Hsum.
  split; [exact Hsum |]. split.
  - clear Hsum. induction Hwhole as [| r rest Hr _ IH];
      cbn [List.length map fold_right]; [lia |].
    destruct Hr as [s [k [Hs [He Hk]]]]. unfold inclusiveDays at 1.
    rewrite Hs, He.
    replace (s + k * msPerDay - s) with (k * msPerDay) by ring.
    rewrite Z.div_mul by (unfold msPerDay; lia). lia.
  - intros Hnil. rewrite Hsum, Hnil. reflexivity.
Qed.

Lemma total_days_counts_inclusive_days_witness :
  Forall wholeDays
    (filter (fun r => isApproved (LeaveRequest.status r)) LeaveBalance.twoWeeks)
  /\ totalDays (LeaveChart.leaveView LeaveBalance.twoWeeks) = Fin 13.
Proof.
  assert (H : Forall wholeDays
                (filter (fun r => isApproved (LeaveRequest.status r))
                        LeaveBalance.twoWeeks)).
  { cbn. repeat constructor.
    - exists (4 * msPerDay), 11. repeat split. lia.
    - exists (25 * msPerDay), 0. repeat split. lia. }
  split; [exact H |].
  exact (proj1 (total_days_counts_inclusive_days
                  (LeaveChart.leaveView LeaveBalance.twoWeeks) H)).
Defined.

(** X12.  A request that starts before the queried range and ends after it
    is left out of the server's leave report, whatever the store, the
    department and the status asked for; yet for the same period the
    reports page counts the employee as on leave when the request is
    approved. *)
Theorem leave_report_misses_spanning_request (st : LeaveServer.Storage)
    (r : LeaveRequest.t) (s e from to : Z) (dept : option num)
    (status : option string) (user : User.t) :
  LeaveRequest.startDate r = ValidDate s ->
  LeaveRequest.endDate r = ValidDate e ->
  s < from -> from <= to -> to < e ->
  ~ In r (LeaveServer.reportedRequests st
            {| LeaveServer.startDate := Some (ValidDate from);
               LeaveServer.endDate := Some (ValidDate to);
               LeaveServer.departmentId := dept;
               LeaveServer.status := status |}
            (ValidDate from) (ValidDate to) user)
  /\ (isApproved (LeaveRequest.status r) = true ->
      isEmployeeOnLeaveInPeriod AttendanceReport [r] (ValidDate from) (ValidDate to)
        (LeaveRequest.userId r) = true).
Proof.
  intros Hs He Hsf Hft Hte. split.
  - intros Hin.
    assert (Hrange : LeaveServer.startsOrEndsWithin (ValidDate from) (ValidDate to) r
                     = true).
    { unfold LeaveServer.reportedRequests in Hin. cbn [LeaveServer.status] in Hin.
      destruct status; [apply filter_In in Hin as [Hin _] |];
        apply filter_In in Hin; apply Hin. }
    unfold LeaveServer.startsOrEndsWithin in Hrange. rewrite Hs, He in Hrange.
    cbn [getTime geb] in Hrange.
    apply orb_true_iff in Hrange as [H | H]; apply andb_true_iff in H as [H1 H2];
      apply Z.leb_le in H1, H2; lia.
  - intros Ha. cbn [isEmployeeOnLeaveInPeriod existsb].
    rewrite Z.eqb_refl, Ha, Hs, He. cbn [negb orb getTime geb].
    rewrite (proj2 (Z.leb_le s to)), (proj2 (Z.leb_le from e)) by lia.
    reflexivity.
Qed.

Lemma leave_report_misses_spanning_request_witness :
  ~ In (LeaveBalance.annualLeave 1 1 20)
       (LeaveServer.reportedRequests
          {| LeaveServer.users := []; LeaveServer.leaveRequests :=
               [LeaveBalance.annualLeave 1 1 20];
             LeaveServer.notifications := [];
             LeaveServer.currentNotificationId := 1 |}
          {| LeaveServer.startDate := Some (ValidDate (5 * msPerDay));
             LeaveServer.endDate := Some (ValidDate (9 * msPerDay));
             LeaveServer.departmentId := None;
             LeaveServer.status := None |}
          (ValidDate (5 * msPerDay)) (ValidDate (9 * msPerDay))
          Reconcile.asha)
  /\ isEmployeeOnLeaveInPeriod AttendanceReport [LeaveBalance.annualLeave 1 1 20]
       (ValidDate (5 * msPerDay)) (ValidDate (9 * msPerDay)) 1 = true.
Proof.
  pose proof (leave_report_misses_spanning_request
                {| LeaveServer.users := []; LeaveServer.leaveRequests :=
                     [LeaveBalance.annualLeave 1 1 20];
                   LeaveServer.notifications := [];
                   LeaveServer.currentNotificationId := 1 |}
                (LeaveBalance.annualLeave 1 1 20)
                (1 * msPerDay) (20 * msPerDay) (5 * msPerDay) (9 * msPerDay)
                None None Reconcile.asha eq_refl eq_refl
                ltac:(vm_compute; reflexivity) ltac:(vm_compute; discriminate)
                ltac:(vm_compute; reflexivity)) as [H1 H2].
  split; [exact H1 | exact (H2 eq_refl)].
Defined.

End ReportsMore.

(** ** The attendance report, from the store to the table *)

Module ReportFlow.
Import Js DateFns ReportsPage Server.
Open Scope Z_scope.

(** The records of [user] the attendance report keeps. *)
Definition reportedRecords (st : Storage) (start end_ : Date) (user : User.t)
  : list Attendance.t :=
  filter (inRange start end_) (getAttendanceByUser st (User.id user)).

Definition hasReportedRecords (st : Storage) (start end_ : Date) (user : User.t)
  : bool :=
  match reportedRecords st start end_ user with
  | [] => false
  | _ :: _ => true
  end.

(** The entry of the attendance report for [user]. *)
Definition entryOf (st : Storage) (start end_ : Date) (user : User.t) : ViewRecord :=
  {| user := Some (reportUser user);
     records := Some (reportedRecords st start end_ user);
     leaveRequests := None |}.

Definition usersInScope (st : Storage) (dept : option num) : list User.t :=
  match dept with
  | Some d => filter (inDepartment d) (users st)
  | None => users st
  end.

Lemma attendance_report_is_filter_map st start end_ dept :
  attendanceReport st {| startDate := Some start; endDate := Some end_;
                         departmentId := dept |}
  = mkResponse 200
      (Json (map (entryOf st start end_)
                 (filter (hasReportedRecords st start end_) (usersInScope st dept)))).
Proof.
  unfold attendanceReport. cbn [startDate endDate departmentId].
  fold (usersInScope st dept). f_equal. f_equal.
  etransitivity;
    [| exact (LeaveServer.pushes_are_filter_map
                (hasReportedRecords st start end_) (entryOf st start end_)
                (usersInScope st dept) [])].
  apply LeaveServer.fold_left_same. intros acc user.
  unfold hasReportedRecords, entryOf, reportedRecords.
  now destruct (filter (inRange start end_) (getAttendanceByUser st (User.id user))).
Qed.



(** X13.  The attendance report holds one entry for every user in scope
    (all users, or those of the queried department) with at least one record
    dated within the range, in the order of the users, and no other entry;
    each entry holds the copied user fields and exactly the user's records
    within the range, in stored order, so every record in it belongs to its
    user and no entry has an empty list. *)
Theorem attendance_report_entries (st : Storage) (start end_ : Date)
    (dept : option num) :
  attendanceReport st {| startDate := Some start; endDate := Some end_;
                         departmentId := dept |}
  = mkResponse 200
      (Json (map (entryOf st start end_)
                 (filter (hasReportedRecords st start end_) (usersInScope st dept))))
  /\ (forall user a,
        In a (reportedRecords st start end_ user) ->
        In a (attendanceRecords st)
        /\ Attendance.userId a = User.id user
        /\ inRange start end_ a = true)
  /\ (forall v,
        In v (map (entryOf st start end_)
                  (filter (hasReportedRecords st start end_) (usersInScope st dept))) ->
        records v <> Some [] /\ records v <> None).
Proof.
  split; [apply attendance_report_is_filter_map |]. split.
  - intros user a Ha. unfold reportedRecords in Ha.
    apply filter_In in Ha as [Ha Hr]. unfold getAttendanceByUser in Ha.
    apply filter_In in Ha as [Ha Hu]. apply Z.eqb_eq in Hu. auto.
  - intros v Hv. apply in_map_iff in Hv as [u [<- Hu]].
    apply filter_In in Hu as [_ Hu]. unfold hasReportedRecords in Hu.
    cbn [entryOf records].
    destruct (reportedRecords st start end_ u); [discriminate Hu |].
    split; discriminate.
Qed.





End ReportFlow.

(** ** More of the leave page ([src/unnamed/part_002]) *)

From Stdlib Require Import DecimalString.

Module LeaveMore.
Import Js DateFns LeavePage.
Open Scope Z_scope.

(** The decimal text of a count, as a template literal prints it. *)
Definition numberText (n : nat) : string :=
  NilZero.string_of_uint (Nat.to_uint n).

Section Duration.
Variable tz : Z.
Variable badInterval : Date -> Date -> outcome (list Date).

(** [calculateDuration], with [start] and [end_] what [new Date] reads from
    its arguments. *)
Definition calculateDuration (start end_ : Date) : outcome string :=
  let startDate := start in
  let endDate := end_ in
  if gtb (getTime startDate) (getTime endDate) then Ok "0 days"%string
  else
    bind (eachDayOfInterval tz badInterval startDate endDate) (fun allDays =>
    let businessDays := filter (fun day => negb (isWeekend tz day)) allDays in
    let diffDays := List.length businessDays in
    let plural := if Nat.eqb diffDays 1 then ""%string else "s"%string in
    Ok (numberText diffDays ++ " working day" ++ plural)%string).

End Duration.

(** The text shown for [n] working days. *)
Definition durationText (n : Z) : string :=
  let plural := if n =? 1 then ""%string else "s"%string in
  (numberText (Z.to_nat n) ++ " working day" ++ plural)%string.

(** *** Weeks *)

Lemma daysFrom_app a n : forall m b,
  b = a + Z.of_nat n ->
  LeaveBalance.daysFrom a (n + m)
  = LeaveBalance.daysFrom a n ++ LeaveBalance.daysFrom b m.
Proof.
  revert a. induction n as [| n IH]; intros a m b ->.
  - cbn [Nat.add Z.of_nat]. rewrite Z.add_0_r. reflexivity.
  - cbn [Nat.add]. rewrite !LeaveBalance.daysFrom_S. cbn [app]. f_equal.
    apply IH. lia.
Qed.

(** Whether a day of the week (0 is Sunday) is a business day. *)
Definition businessWeekday (w : Z) : bool := negb ((w =? 0) || (w =? 6)).

Lemma weekday_shift a i : weekday (a + i) = (weekday a + i) mod 7.
Proof.
  unfold weekday. rewrite Zplus_mod_idemp_l. f_equal. lia.
Qed.

Lemma business_days_by_weekday (days : list Z) :
  List.length (filter LeaveBalance.isBusinessDay days)
  = List.length (filter businessWeekday (map weekday days)).
Proof.
  induction days as [| d rest IH]; [reflexivity |].
  cbn [map filter]. change (LeaveBalance.isBusinessDay d) with (businessWeekday (weekday d)).
  destruct (businessWeekday (weekday d)); cbn [List.length]; now rewrite IH.
Qed.

Lemma one_week a :
  List.length (filter LeaveBalance.isBusinessDay (LeaveBalance.daysFrom a 7)) = 5%nat.
Proof.
  rewrite business_days_by_weekday. unfold LeaveBalance.daysFrom.
  rewrite map_map. cbn [seq map].
  rewrite !weekday_shift.
  pose proof (Z.mod_pos_bound (a + 4) 7 ltac:(lia)) as Hw. fold (weekday a) in Hw.
  assert (H : weekday a = 0 \/ weekday a = 1 \/ weekday a = 2 \/ weekday a = 3
              \/ weekday a = 4 \/ weekday a = 5 \/ weekday a = 6) by lia.
  destruct H as [-> | [-> | [-> | [-> | [-> | [-> | ->]]]]]]; reflexivity.
Qed.

Lemma whole_weeks a k :
  List.length (filter LeaveBalance.isBusinessDay (LeaveBalance.daysFrom a (7 * k)))
  = (5 * k)%nat.
Proof.
  revert a. induction k as [| k IH]; intros a; [reflexivity |].
  replace (7 * S k)%nat with (7 + 7 * k)%nat by lia.
  rewrite (daysFrom_app a 7 (7 * k) (a + 7) eq_refl), filter_app, length_app.
  rewrite one_week, IH. lia.
Qed.

(** *** Properties *)

Section Properties.
Variable tz : Z.
Variable badInterval : Date -> Date -> outcome (list Date).

Lemma consume_wellFormed ty total r :
  ty <> LeaveType.halfday -> LeaveBalance.wellFormed r ->
  consume tz badInterval ty total r = Ok (total + LeaveBalance.businessDays tz r).
Proof.
  intros Hty Hwf. rewrite LeaveBalance.consume_cost.
  rewrite LeaveBalance.cost_wellFormed by (intros _; exact Hwf).
  cbn [bind]. destruct ty; try reflexivity. now elim Hty.
Qed.

Lemma one_as_Z (n : nat) : (Z.of_nat n =? 1) = Nat.eqb n 1.
Proof.
  destruct (Z.eqb_spec (Z.of_nat n) 1), (Nat.eqb_spec n 1); try reflexivity; lia.
Qed.

Lemma duration_wellFormed (s e : Z) :
  s <= e ->
  calculateDuration tz badInterval (ValidDate s) (ValidDate e)
  = Ok (durationText
          (Z.of_nat (List.length (filter LeaveBalance.isBusinessDay
                                         (LeaveBalance.calendarDays tz s e))))).
Proof.
  intros Hle. unfold calculateDuration, eachDayOfInterval. cbn [getTime gtb].
  rewrite (proj2 (Z.ltb_ge e s) Hle), (proj2 (Z.leb_le s e) Hle). cbn [bind].
  rewrite LeaveBalance.startOfDay_midnight.
  assert (Hdn : dayNumber tz s <= dayNumber tz e)
    by (unfold dayNumber, localMs; apply Z.div_le_mono;
        [exact LeaveBalance.msPerDay_pos | lia]).
  rewrite (LeaveBalance.eachDayLoop_days tz e
             (Z.to_nat (dayNumber tz e - dayNumber tz s + 1))) by lia.
  rewrite LeaveBalance.business_days_of_loop. fold (LeaveBalance.calendarDays tz s e).
  unfold durationText. cbv zeta. now rewrite Nat2Z.id, one_as_Z.
Qed.

(** X15.  For a request whose dates parse with the end not before the
    start, the duration text the leave page shows is the number of business
    days the balance calculator charges for the request (when it is not a
    half day), followed by " working day" and an "s" unless the number is 1.
    For a valid end before a valid start the text is "0 days" and
    [eachDayOfInterval] is not called. *)
Theorem duration_is_what_the_balance_charges (r : LeaveRequest.t) :
  LeaveBalance.wellFormed r ->
  calculateDuration tz badInterval (LeaveRequest.startDate r) (LeaveRequest.endDate r)
  = Ok (durationText (LeaveBalance.businessDays tz r))
  /\ (forall ty total,
        ty <> LeaveType.halfday ->
        consume tz badInterval ty total r
        = Ok (total + LeaveBalance.businessDays tz r))
  /\ (forall s e, e < s ->
        calculateDuration tz badInterval (ValidDate s) (ValidDate e)
        = Ok "0 days"%string).
Proof.
  intros Hwf. split; [| split].
  - destruct Hwf as [s [e [Hs [He Hle]]]]. unfold LeaveBalance.businessDays.
    rewrite Hs, He. now apply duration_wellFormed.
  - intros ty total Hty. now apply consume_wellFormed.
  - intros s e Hlt. unfold calculateDuration. cbn [getTime gtb].
    now rewrite (proj2 (Z.ltb_lt e s) Hlt).
Qed.

(** X16.  For the two leave types without a quota, unpaid and other, the
    balance is 0 of 0 with 0 remaining whatever has been approved, as long
    as the approved requests of that type have dates that parse with the end
    not before the start. *)
Theorem balance_without_quota_is_zero (requests : list LeaveRequest.t)
    (ty : LeaveType.t) :
  ty = LeaveType.unpaid \/ ty = LeaveType.other ->
  Forall (fun r => LeaveBalance.counts ty r = true -> LeaveBalance.wellFormed r)
         requests ->
  calculateLeaveBalance tz badInterval requests ty
  = Ok {| total := 0; used := 0; remaining := 0 |}.
Proof.
  intros Hty Hwf.
  assert (Hused : usedUnits tz badInterval requests ty
                  = Ok (LeaveBalance.usedSpec tz requests ty)).
  { unfold usedUnits, LeaveBalance.usedSpec. fold (LeaveBalance.counts ty).
    rewrite (LeaveBalance.reduce_sum tz badInterval ty (LeaveBalance.unitsOf tz ty));
      [reflexivity |].
    apply Forall_forall. intros r Hr. apply filter_In in Hr as [Hin Hc].
    apply LeaveBalance.cost_wellFormed. intros _.
    rewrite Forall_forall in Hwf. now apply Hwf. }
  unfold calculateLeaveBalance. rewrite Hused. cbn [bind].
  destruct Hty as [-> | ->]; reflexivity.
Qed.

(** X17.  A request that is not approved, or is of another type, never
    changes the balance of a leave type, wherever it stands in the list and
    whatever its dates are (they may even fail to parse). *)
Theorem uncounted_request_changes_nothing (before after : list LeaveRequest.t)
    (r : LeaveRequest.t) (ty : LeaveType.t) :
  isApproved (LeaveRequest.status r) = false
  \/ LeaveRequest.type r <> ty ->
  calculateLeaveBalance tz badInterval (before ++ r :: after) ty
  = calculateLeaveBalance tz badInterval (before ++ after) ty.
Proof.
  intros Hr. unfold calculateLeaveBalance, usedUnits.
  rewrite !filter_app. cbn [filter].
  replace (isApproved (LeaveRequest.status r)
           && LeaveType.eqb (LeaveRequest.type r) ty) with false; [reflexivity |].
  symmetry. apply andb_false_iff. destruct Hr as [Hr | Hr]; [now left | right].
  destruct (LeaveRequest.type r), ty; try reflexivity; now elim Hr.
Qed.

(** X18.  A request that is not a half day and spans whole weeks, [7 * k]
    calendar days from the day of its start to the day of its end, is
    charged exactly [5 * k] days, on whatever day of the week it starts; the
    duration text shows the same number. *)
Theorem whole_weeks_cost_five_days_each (r : LeaveRequest.t) (s e : Z) (k : nat) :
  LeaveRequest.startDate r = ValidDate s ->
  LeaveRequest.endDate r = ValidDate e ->
  s <= e ->
  dayNumber tz e - dayNumber tz s + 1 = 7 * Z.of_nat k ->
  LeaveBalance.businessDays tz r = 5 * Z.of_nat k
  /\ (forall ty total,
        ty <> LeaveType.halfday ->
        consume tz badInterval ty total r = Ok (total + 5 * Z.of_nat k))
  /\ calculateDuration tz badInterval (ValidDate s) (ValidDate e)
     = Ok (durationText (5 * Z.of_nat k)).
Proof.
  intros Hs He Hle Hspan.
  assert (Hwf : LeaveBalance.wellFormed r) by (exists s, e; auto).
  assert (Hdays : LeaveBalance.businessDays tz r = 5 * Z.of_nat k).
  { unfold LeaveBalance.businessDays, LeaveBalance.calendarDays.
    rewrite Hs, He, Hspan.
    replace (Z.to_nat (7 * Z.of_nat k)) with (7 * k)%nat by lia.
    rewrite whole_weeks. lia. }
  split; [exact Hdays |]. split.
  - intros ty total Hty. rewrite (consume_wellFormed ty total r Hty Hwf).
    now rewrite Hdays.
  - rewrite <- Hdays. unfold LeaveBalance.businessDays. rewrite Hs, He.
    now apply duration_wellFormed.
Qed.

End Properties.

Definition throws : Date -> Date -> outcome (list Date) := fun _ _ => Throw.

Lemma annualLeave_wellFormed i from to :
  from <= to -> LeaveBalance.wellFormed (LeaveBalance.annualLeave i from to).
Proof.
  intros H. exists (from * msPerDay), (to * msPerDay).
  split; [reflexivity |]. split; [reflexivity |]. unfold msPerDay. lia.
Qed.

Lemma duration_is_what_the_balance_charges_witness :
  LeaveBalance.wellFormed (LeaveBalance.annualLeave 1 4 6)
  /\ calculateDuration 0 throws (ValidDate (4 * msPerDay)) (ValidDate (6 * msPerDay))
     = Ok "3 working days"%string
  /\ consume 0 throws LeaveType.annual 2 (LeaveBalance.annualLeave 1 4 6) = Ok 5.
Proof.
  assert (H : LeaveBalance.wellFormed (LeaveBalance.annualLeave 1 4 6))
    by (apply annualLeave_wellFormed; lia).
  pose proof (duration_is_what_the_balance_charges 0 throws
                (LeaveBalance.annualLeave 1 4 6) H) as [Hd [Hc _]].
  split; [exact H |]. split; [exact Hd |].
  apply (Hc LeaveType.annual 2). discriminate.
Defined.

(** An approved unpaid leave of three days. *)
Definition unpaidLeave : LeaveRequest.t :=
  {| LeaveRequest.id := 1; LeaveRequest.userId := 1;
     LeaveRequest.type := LeaveType.unpaid;
     LeaveRequest.startDate := ValidDate (4 * msPerDay);
     LeaveRequest.endDate := ValidDate (6 * msPerDay);
     LeaveRequest.status := Some approved |}.

Lemma balance_without_quota_is_zero_witness :
  Forall (fun r => LeaveBalance.counts LeaveType.unpaid r = true ->
                   LeaveBalance.wellFormed r) [unpaidLeave]
  /\ calculateLeaveBalance 0 throws [unpaidLeave] LeaveType.unpaid
     = Ok {| total := 0; used := 0; remaining := 0 |}.
Proof.
  assert (H : Forall (fun r => LeaveBalance.counts LeaveType.unpaid r = true ->
                               LeaveBalance.wellFormed r) [unpaidLeave]).
  { repeat constructor. intros _. exists (4 * msPerDay), (6 * msPerDay).
    repeat split. unfold msPerDay. lia. }
  split; [exact H |].
  exact (balance_without_quota_is_zero 0 throws [unpaidLeave] LeaveType.unpaid
           (or_introl eq_refl) H).
Defined.

(** A pending annual leave whose dates do not parse. *)
Definition pendingGarbage : LeaveRequest.t :=
  {| LeaveRequest.id := 9; LeaveRequest.userId := 1;
     LeaveRequest.type := LeaveType.annual;
     LeaveRequest.startDate := InvalidDate;
     LeaveRequest.endDate := InvalidDate;
     LeaveRequest.status := Some pending |}.

Lemma uncounted_request_changes_nothing_witness :
  isApproved (LeaveRequest.status pendingGarbage) = false
  /\ calculateLeaveBalance 0 throws
       ([LeaveBalance.annualLeave 1 4 6] ++ pendingGarbage
        :: [LeaveBalance.annualLeave 2 8 11]) LeaveType.annual
     = Ok {| total := 20; used := 5; remaining := 15 |}.
Proof.
  split; [reflexivity |].
  rewrite (uncounted_request_changes_nothing 0 throws
             [LeaveBalance.annualLeave 1 4 6] [LeaveBalance.annualLeave 2 8 11]
             pendingGarbage LeaveType.annual (or_introl eq_refl)).
  reflexivity.
Defined.

Lemma whole_weeks_cost_five_days_each_witness :
  dayNumber 0 (17 * msPerDay) - dayNumber 0 (4 * msPerDay) + 1 = 7 * Z.of_nat 2
  /\ LeaveBalance.businessDays 0 (LeaveBalance.annualLeave 1 4 17) = 10
  /\ calculateDuration 0 throws (ValidDate (4 * msPerDay)) (ValidDate (17 * msPerDay))
     = Ok "10 working days"%string.
Proof.
  assert (H : dayNumber 0 (17 * msPerDay) - dayNumber 0 (4 * msPerDay) + 1
              = 7 * Z.of_nat 2) by reflexivity.
  pose proof (whole_weeks_cost_five_days_each 0 throws
                (LeaveBalance.annualLeave 1 4 17) (4 * msPerDay) (17 * msPerDay) 2
                eq_refl eq_refl ltac:(vm_compute; discriminate) H) as [Hb [_ Hd]].
  split; [exact H |]. split; [exact Hb | exact Hd].
Defined.

End LeaveMore.

(** ** Attendance by date ([src/server/routes.ts]) *)

Module ByDate.
Import Js DateFns Server.
Open Scope Z_scope.

(** [GET /api/attendance]: [userId] is what [parseInt] reads from the
    parameter, [date] what [new Date] reads; an absent or empty parameter is
    [None]. *)
Definition listAttendance (tz : Z) (st : Storage) (userId : option num)
    (date : option Date) : list Attendance.t :=
  match userId with
  | Some (Fin u) => getAttendanceByUser st u
  | Some NaN => []
  | None =>
      match date with
      | Some d => getAttendanceByDate tz st d
      | None => attendanceRecords st
      end
  end.

(** X19.  [getAttendanceByDate] with a date that parses returns, in stored
    order, the records whose own date parses and falls on the same calendar
    day, and none without a date.  With an Invalid Date, as
    [GET /api/attendance?date=...] passes for a text that does not parse, it
    returns exactly the records whose own date does not parse, since both
    print as "Invalid Date". *)
Theorem attendance_by_date (tz : Z) (st : Storage) :
  (forall ms,
     getAttendanceByDate tz st (ValidDate ms)
     = filter (CheckIn.onDay tz (civil (dayNumber tz ms))) (attendanceRecords st))
  /\ (forall ms r,
        In r (getAttendanceByDate tz st (ValidDate ms)) ->
        exists ms', Attendance.date r = Some (ValidDate ms')
                    /\ civil (dayNumber tz ms') = civil (dayNumber tz ms))
  /\ getAttendanceByDate tz st InvalidDate
     = filter (fun r => match Attendance.date r with
                        | Some InvalidDate => true
                        | _ => false
                        end) (attendanceRecords st)
  /\ listAttendance tz st None (Some InvalidDate)
     = getAttendanceByDate tz st InvalidDate.
Proof.
  assert (Hvalid : forall ms,
            getAttendanceByDate tz st (ValidDate ms)
            = filter (CheckIn.onDay tz (civil (dayNumber tz ms)))
                     (attendanceRecords st)).
  { intros ms. unfold getAttendanceByDate. apply filter_ext. intros r.
    unfold CheckIn.onDay. destruct (Attendance.date r) as [[ms' |] |]; reflexivity. }
  split; [exact Hvalid |]. split; [| split; [| reflexivity]].
  - intros ms r Hr. rewrite Hvalid in Hr. apply filter_In in Hr as [_ Hr].
    unfold CheckIn.onDay in Hr.
    destruct (Attendance.date r) as [[ms' |] |]; try discriminate Hr.
    exists ms'. split; [reflexivity |]. now apply CheckIn.ymd_eqb_eq.
  - unfold getAttendanceByDate. apply filter_ext. intros r.
    destruct (Attendance.date r) as [[ms' |] |]; reflexivity.
Qed.

(** A record whose date text does not parse, next to a record of day 0. *)
Definition mixedStore : Storage :=
  {| users := [];
     attendanceRecords :=
       [ BadDates.badAttendance; Lateness.presentAt 0 (Lateness.clock 9 30 0) ];
     currentAttendanceId := 3 |}.

Lemma attendance_by_date_witness :
  In (Lateness.presentAt 0 (Lateness.clock 9 30 0))
     (getAttendanceByDate 0 mixedStore (ValidDate 1000))
  /\ (exists ms', Attendance.date (Lateness.presentAt 0 (Lateness.clock 9 30 0))
                  = Some (ValidDate ms')
                  /\ civil (dayNumber 0 ms') = civil (dayNumber 0 1000))
  /\ getAttendanceByDate 0 mixedStore InvalidDate = [BadDates.badAttendance].
Proof.
  assert (H : In (Lateness.presentAt 0 (Lateness.clock 9 30 0))
                 (getAttendanceByDate 0 mixedStore (ValidDate 1000)))
    by (now left).
  split; [exact H |].
  split; [exact (proj1 (proj2 (attendance_by_date 0 mixedStore)) 1000 _ H) |].
  reflexivity.
Defined.

End ByDate.

(** ** Worked reports *)

Module Worked.
Import Js DateFns.
Open Scope Z_scope.

(** User 4 has a request inside the range, user 5 one outside. *)
Definition leaveStore : LeaveServer.Storage :=
  {| LeaveServer.users :=
       [ {| User.id := 4; User.firstName := "Mira"; User.lastName := "Das";
            User.position := None; User.departmentId := Some 2;
            User.salary := None |};
         {| User.id := 5; User.firstName := "Ravi"; User.lastName := "Iyer";
            User.position := None; User.departmentId := Some 2;
            User.salary := None |} ];
     LeaveServer.leaveRequests :=
       [ {| LeaveRequest.id := 1; LeaveRequest.userId := 4;
            LeaveRequest.type := LeaveType.annual;
            LeaveRequest.startDate := ValidDate (2 * msPerDay);
            LeaveRequest.endDate := ValidDate (3 * msPerDay);
            LeaveRequest.status := Some approved |};
         {| LeaveRequest.id := 2; LeaveRequest.userId := 5;
            LeaveRequest.type := LeaveType.sick;
            LeaveRequest.startDate := ValidDate (40 * msPerDay);
            LeaveRequest.endDate := ValidDate (41 * msPerDay);
            LeaveRequest.status := Some pending |} ];
     LeaveServer.notifications := [];
     LeaveServer.currentNotificationId := 1 |}.

Lemma leave_report_entries_witness :
  List.length
    (match LeaveServer.body
             (LeaveServer.leaveReport leaveStore
                {| LeaveServer.startDate := Some (ValidDate 0);
                   LeaveServer.endDate := Some (ValidDate (10 * msPerDay));
                   LeaveServer.departmentId := None;
                   LeaveServer.status := Some "approved"%string |}) with
     | LeaveServer.Json entries => entries
     | _ => []
     end) = 1%nat.
Proof.
  rewrite (proj1 (LeaveServer.leave_report_entries leaveStore (ValidDate 0)
                    (ValidDate (10 * msPerDay)) None (Some "approved"%string))).
  reflexivity.
Defined.

Lemma attendance_report_entries_witness :
  Server.attendanceReport Reconcile.store
    {| Server.startDate := Some (ValidDate 0);
       Server.endDate := Some (ValidDate msPerDay);
       Server.departmentId := None |}
  = Server.mkResponse 200
      (Server.Json [ReportFlow.entryOf Reconcile.store (ValidDate 0)
                      (ValidDate msPerDay) Reconcile.ravi]).
Proof.
  rewrite (proj1 (ReportFlow.attendance_report_entries Reconcile.store (ValidDate 0)
                    (ValidDate msPerDay) None)).
  reflexivity.
Defined.

End Worked.
